(** * TwinEdge Safety Lab backend: sensor ingestion, retrieval and risk scoring

    A shallow embedding of [src/main.py] and [src/schemas.py].

    - Python [float] is IEEE 754 binary64, modelled by [spec_float] with the
      operations of the Standard Library's [SpecFloat] at precision 53 and
      maximal exponent 1024.
    - Python [int] is unbounded, modelled by [Z].
    - An exception is a value of [exn]; code that may raise returns
      [result A]. *)

From Stdlib Require Import ZArith Bool Lia Ascii String.
From Stdlib Require Import Floats.SpecFloat.
From stdpp Require Import base option list sorting strings pretty gmap.

Local Open Scope Z_scope.

(** ** Exceptions *)

Inductive exn : Type :=
  | OverflowError
  | ZeroDivisionError
  | TypeError
  | ValidationError
  | StoreFailure
  | HTTPException (status_code : Z).

Inductive result (A : Type) : Type :=
  | Ok (a : A)
  | Raise (e : exn).
Arguments Ok {A} a.
Arguments Raise {A} e.

Definition bind {A B : Type} (r : result A) (k : A -> result B) : result B :=
  match r with
  | Ok a => k a
  | Raise e => Raise e
  end.

Notation "'let*' x ':=' r 'in' k" := (bind r (fun x => k))
  (at level 10, x name, r at level 100, k at level 200).

(** [try: body except Exception as e: raise HTTPException(500, str(e))] *)
Definition except_http500 {A : Type} (r : result A) : result A :=
  match r with
  | Ok a => Ok a
  | Raise _ => Raise (HTTPException 500)
  end.

(** ** Python floats *)

Module PyFloat.

Definition prec : Z := 53.
Definition emax : Z := 1024.

Definition float : Type := spec_float.

Definition fadd : float -> float -> float := SFadd prec emax.
Definition fsub : float -> float -> float := SFsub prec emax.
Definition fmul : float -> float -> float := SFmul prec emax.
Definition fdiv : float -> float -> float := SFdiv prec emax.

(** The integer [z] as a float datum of the same value (exponent 0, the
    mantissa not normalised). *)
Definition exact_of_int (z : Z) : float :=
  match z with
  | Z0 => S754_zero false
  | Zpos p => S754_finite false p 0
  | Zneg p => S754_finite true p 0
  end.

(** [float(z)]: the nearest binary64 number. *)
Definition float_of_int (z : Z) : float := binary_normalize prec emax z 0 false.

(** The literals of [assess_risk]. *)
Definition f0 : float := S754_zero false.                         (* 0.0 *)
Definition f100 : float := S754_finite false 7036874417766400 (-46). (* 100.0 *)
Definition f1_2 : float := S754_finite false 5404319552844595 (-52). (* 1.2 *)

(** *** Comparison

    Python compares two floats, and a float with an int, by their exact
    values; a NaN is unordered. *)

Definition signed_mantissa (x : float) : Z :=
  match x with
  | S754_finite s m _ => cond_Zopp s (Zpos m)
  | _ => 0
  end.

Definition exponent (x : float) : Z :=
  match x with
  | S754_finite _ _ e => e
  | _ => 0
  end.

Definition fcompare (x y : float) : option comparison :=
  match x, y with
  | S754_nan, _ | _, S754_nan => None
  | S754_infinity sx, S754_infinity sy =>
      Some (match sx, sy with
            | true, true | false, false => Eq
            | true, false => Lt
            | false, true => Gt
            end)
  | S754_infinity s, _ => Some (if s then Lt else Gt)
  | _, S754_infinity s => Some (if s then Gt else Lt)
  | _, _ =>
      let e := Z.min (exponent x) (exponent y) in
      Some (Z.compare (signed_mantissa x * 2 ^ (exponent x - e))
                      (signed_mantissa y * 2 ^ (exponent y - e)))
  end.

Definition flt (x y : float) : bool :=
  match fcompare x y with Some Lt => true | _ => false end.
Definition fle (x y : float) : bool :=
  match fcompare x y with Some (Lt | Eq) => true | _ => false end.
Definition fgt (x y : float) : bool := flt y x.
Definition fge (x y : float) : bool := fle y x.

(** [max(a, b)] and [min(a, b)] of the builtins: the first argument is kept
    unless the second is strictly greater (smaller). *)
Definition pymax (a b : float) : float := if fgt b a then b else a.
Definition pymin (a b : float) : float := if flt b a then b else a.

(** *** int / int

    True division of two ints is the correctly rounded quotient; a quotient
    too large for a float raises [OverflowError]. *)
Definition int_truediv (a b : Z) : result float :=
  if b =? 0 then Raise ZeroDivisionError
  else match fdiv (exact_of_int a) (exact_of_int b) with
       | S754_infinity _ => Raise OverflowError
       | q => Ok q
       end.

(** *** round(x, 1)

    The decimal with one digit after the point nearest to the exact value of
    [x], ties to even, converted back to the nearest float. *)
Definition round_half_even (num den : Z) : Z :=
  let q := num / den in
  let r := num mod den in
  match Z.compare (2 * r) den with
  | Lt => q
  | Gt => q + 1
  | Eq => if Z.even q then q else q + 1
  end.

(** The number of tenths in [m * 2^e], rounded. *)
Definition tenths (m : positive) (e : Z) : Z :=
  if 0 <=? e then 10 * Zpos m * 2 ^ e
  else round_half_even (10 * Zpos m) (2 ^ (- e)).

Definition round1 (x : float) : float :=
  match x with
  | S754_finite s m e =>
      match tenths m e with
      | Zpos n => fdiv (S754_finite s n 0) (exact_of_int 10)
      | _ => S754_zero s
      end
  | _ => x
  end.

End PyFloat.
Import PyFloat.

(** ** Risk scorer ([assess_risk], src/main.py) *)

(** [InsightRequest] and [InsightResponse] of src/schemas.py. *)
Record InsightRequest : Type := {
  temperature_c : float;
  gas_ppm : Z;
  aqi : Z
}.

Record InsightResponse : Type := {
  score : float;
  level : string;
  tips : list string
}.

(** The constructor checks [Field(..., ge=0, le=100)] on [score]. *)
Definition InsightResponse_new (s : float) (l : string) (t : list string)
  : result InsightResponse :=
  if fge s (exact_of_int 0) && fle s (exact_of_int 100)
  then Ok {| score := s; level := l; tips := t |}
  else Raise ValidationError.

Definition tips_high : list string :=
  [ "Evacuate non-essential personnel";
    "Engage ventilation and gas suppression systems";
    "Activate incident command protocol" ]%string.

Definition tips_elevated : list string :=
  [ "Increase monitoring frequency";
    "Prepare PPE and standby team";
    "Verify sensor calibration" ]%string.

Definition tips_normal : list string :=
  [ "Continue routine monitoring";
    "Maintain clear egress routes" ]%string.

(** Lines 116-119: the weighted sum, before clamping. *)
Definition weighted_score (payload : InsightRequest) : result float :=
  let t := temperature_c payload in
  let g := gas_ppm payload in
  let a := aqi payload in
  let score := f0 in
  let score := fadd score (fmul (pymax f0 (fsub t (float_of_int 25))) f1_2) in
  let* qg := int_truediv g 12 in
  let score := fadd score qg in
  let* qa := int_truediv a 3 in
  let score := fadd score qa in
  Ok score.

(** Line 122. *)
Definition clamp (score : float) : float := pymax f0 (pymin f100 score).

(** Lines 124-143. *)
Definition classify (score : float) (g a : Z) : string * list string :=
  if fge score (exact_of_int 70) || (g >? 800) || (a >? 150)
  then ("High risk"%string, tips_high)
  else if fge score (exact_of_int 45) || (g >? 600) || (a >? 100)
  then ("Elevated"%string, tips_elevated)
  else ("Normal"%string, tips_normal).

Definition assess_risk (payload : InsightRequest) : result InsightResponse :=
  let* score := weighted_score payload in
  let score := clamp score in
  let '(level, tips) := classify score (gas_ppm payload) (aqi payload) in
  InsightResponse_new (round1 score) level tips.

(** ** Documents of the store *)

(** A [datetime]: an instant in microseconds since the epoch, and whether the
    object carries a time zone.  Ordering a naive and an aware datetime raises
    [TypeError]. *)
Record datetime : Type := {
  instant : Z;
  tz_aware : bool
}.

(** The values a stored document holds. *)
#[warnings="-register-all"]
Inductive value : Type :=
  | VNone
  | VInt (z : Z)
  | VFloat (x : float)
  | VStr (s : string)
  | VDatetime (d : datetime)
  | VObjectId (oid : string)
  | VDoc (fields : list (string * value)).

(** A document is a Python [dict] with string keys. *)
Abbreviation doc := (gmap string value).

(** [d.get(k)], with the default [None]. *)
Definition dict_get (d : doc) (k : string) : value := default VNone (d !! k).

(** Truth value of an object, as [or] tests it. *)
Definition truthy (v : value) : bool :=
  match v with
  | VNone => false
  | VInt z => negb (z =? 0)
  | VFloat (S754_zero _) => false
  | VFloat _ => true
  | VStr s => match s with EmptyString => false | _ => true end
  | VDatetime _ => true
  | VObjectId _ => true
  | VDoc fields => match fields with [] => false | _ => true end
  end.

(** [a or b] *)
Definition py_or (a b : value) : value := if truthy a then a else b.

(** [a < b]: numbers with numbers, strings with strings, datetimes of the same
    kind with each other; every other pair raises [TypeError]. *)
Definition py_lt (a b : value) : result bool :=
  match a, b with
  | VInt x, VInt y => Ok (x <? y)
  | VInt x, VFloat y => Ok (flt (exact_of_int x) y)
  | VFloat x, VInt y => Ok (flt x (exact_of_int y))
  | VFloat x, VFloat y => Ok (flt x y)
  | VStr x, VStr y => Ok (String.ltb x y)
  | VObjectId x, VObjectId y => Ok (String.ltb x y)
  | VDatetime x, VDatetime y =>
      if Bool.eqb (tz_aware x) (tz_aware y) then Ok (instant x <? instant y)
      else Raise TypeError
  | _, _ => Raise TypeError
  end.

(** ** Collaborators

    What the two operations use and src/ does not define. *)

(** The Python library: [datetime.fromisoformat] ([None] for a [ValueError]),
    and the conversions pydantic applies to an input of a field of each
    declared type ([None] for an input it rejects). *)
Class PyLib : Type := {
  fromisoformat : string -> option datetime;
  to_datetime : value -> option datetime;
  to_float : value -> option float;
  to_int : value -> option Z;
  to_str : value -> option string
}.

Module Location.
(** [class Location(BaseModel)] *)
Record t : Type := {
  lat : float;
  lng : float
}.
End Location.

Module SensorEvent.
(** [class SensorEvent(BaseModel)] *)
Record t : Type := {
  timestamp : datetime;
  temperature_c : float;
  gas_ppm : Z;
  aqi : Z;
  location : option Location.t;
  notes : option string;
  source : string
}.
End SensorEvent.

(** The [database] module ([create_document], [get_documents]) that
    src/main.py imports: a parameter, with the interface of the document
    store, insert-one(collection, document) -> identifier and
    find(collection, filter, limit) -> sequence of documents, either of which
    may fail.  [store] is the state of the backing collections; the filter
    of the one call is empty and is left out. *)
Class DocumentStore : Type := {
  store : Type;
  create_document : string -> SensorEvent.t -> store -> result string * store;
  get_documents : string -> Z -> store -> result (list doc)
}.

(** ** Validation of the models (src/schemas.py) *)

Section Validation.
Context {lib : PyLib}.

(** [Field(...)]: a required field. *)
Definition required {A : Type} (conv : value -> option A) (d : doc) (k : string)
  : result A :=
  match d !! k with
  | Some v => match conv v with
              | Some x => Ok x
              | None => Raise ValidationError
              end
  | None => Raise ValidationError
  end.

(** [Optional[...] = Field(None)] *)
Definition optional {A : Type} (conv : value -> option A) (d : doc) (k : string)
  : result (option A) :=
  match d !! k with
  | None | Some VNone => Ok None
  | Some v => match conv v with
              | Some x => Ok (Some x)
              | None => Raise ValidationError
              end
  end.

(** [Field(dflt)] *)
Definition with_default {A : Type} (dflt : A) (conv : value -> option A)
  (d : doc) (k : string) : result A :=
  match d !! k with
  | None => Ok dflt
  | Some v => match conv v with
              | Some x => Ok x
              | None => Raise ValidationError
              end
  end.

(** [ge=bound] *)
Definition ge (bound : Z) (z : Z) : result Z :=
  if bound <=? z then Ok z else Raise ValidationError.

Definition to_Location (v : value) : option Location.t :=
  match v with
  | VDoc fields =>
      let d : doc := list_to_map fields in
      match required to_float d "lat", required to_float d "lng" with
      | Ok la, Ok ln => Some {| Location.lat := la; Location.lng := ln |}
      | _, _ => None
      end
  | _ => None
  end.

(** The constructor [SensorEvent], applied to the entries of [d]. *)
Definition SensorEvent_new (d : doc) : result SensorEvent.t :=
  let* ts := required to_datetime d "timestamp" in
  let* temp := required to_float d "temperature_c" in
  let* gas := required to_int d "gas_ppm" in
  let* gas := ge 0 gas in
  let* a := required to_int d "aqi" in
  let* a := ge 0 a in
  let* loc := optional to_Location d "location" in
  let* nts := optional to_str d "notes" in
  let* src := with_default "raspi"%string to_str d "source" in
  Ok {| SensorEvent.timestamp := ts;
        SensorEvent.temperature_c := temp;
        SensorEvent.gas_ppm := gas;
        SensorEvent.aqi := a;
        SensorEvent.location := loc;
        SensorEvent.notes := nts;
        SensorEvent.source := src |}.

(** The constructor [InsightRequest]: no bound on any field. *)
Definition InsightRequest_new (d : doc) : result InsightRequest :=
  let* t := required to_float d "temperature_c" in
  let* g := required to_int d "gas_ppm" in
  let* a := required to_int d "aqi" in
  Ok {| temperature_c := t; gas_ppm := g; aqi := a |}.

End Validation.

(** The fields of a [SensorEvent], as the response serialises them. *)
Definition Location_dump (l : Location.t) : value :=
  VDoc [("lat"%string, VFloat (Location.lat l)); ("lng"%string, VFloat (Location.lng l))].

Definition SensorEvent_dump (ev : SensorEvent.t) : doc :=
  <["timestamp"%string := VDatetime (SensorEvent.timestamp ev)]>
  (<["temperature_c"%string := VFloat (SensorEvent.temperature_c ev)]>
  (<["gas_ppm"%string := VInt (SensorEvent.gas_ppm ev)]>
  (<["aqi"%string := VInt (SensorEvent.aqi ev)]>
  (<["location"%string := from_option Location_dump VNone (SensorEvent.location ev)]>
  (<["notes"%string := from_option VStr VNone (SensorEvent.notes ev)]>
  (<["source"%string := VStr (SensorEvent.source ev)]> ∅)))))).

(** ** Sensor ingestion and retrieval (src/main.py) *)

(** [sorted(docs, key=key_fn, reverse=True)]: the keys are computed first,
    one per element, then the list is sorted with [<] on the keys, stable and
    descending; a comparison that raises ends the sort.  The sort is an
    insertion sort: an element moves right past the elements whose key is
    strictly greater.  On keys that [<] orders consistently (all but a float
    NaN) every stable sort, CPython's included, returns this list; and
    whatever the algorithm, an element is compared with some other, so a list
    that mixes kinds of keys raises here as it does there.  Among keys with a
    float NaN, which [<] puts neither below nor above any number, the order
    depends on the algorithm and CPython's differs from this one: of such a
    list only the elements and the [TypeError] are those of the code, and
    what is stated below about the order leaves these keys out. *)
Fixpoint insert_desc {A : Type} (kx : value * A) (l : list (value * A))
  : result (list (value * A)) :=
  match l with
  | [] => Ok [kx]
  | ky :: l' =>
      let* below := py_lt (fst kx) (fst ky) in
      if below then (let* r := insert_desc kx l' in Ok (ky :: r))
      else Ok (kx :: l)
  end.

Fixpoint sort_desc {A : Type} (l : list (value * A)) : result (list (value * A)) :=
  match l with
  | [] => Ok []
  | kx :: l' => let* s := sort_desc l' in insert_desc kx s
  end.

Fixpoint map_result {A B : Type} (f : A -> result B) (l : list A) : result (list B) :=
  match l with
  | [] => Ok []
  | x :: l' => let* y := f x in let* ys := map_result f l' in Ok (y :: ys)
  end.

Section Endpoints.
Context {lib : PyLib} {db : DocumentStore}.

(** [ingest_sensor_event], lines 65-71. *)
Definition ingest_sensor_event (event : SensorEvent.t) (st : store)
  : result string * store :=
  let '(r, st') := create_document "sensorevent" event st in
  (except_http500 r, st').

(** The route: the body is validated as a [SensorEvent] before the handler
    runs. *)
Definition post_ingest (body : doc) (st : store) : result string * store :=
  match SensorEvent_new body with
  | Ok event => ingest_sensor_event event st
  | Raise e => (Raise e, st)
  end.

(** [key_fn], lines 84-85; [now] is what [datetime.now(timezone.utc)]
    returns when the key of this document is computed. *)
Definition key_fn (now : Z) (d : doc) : value :=
  py_or (dict_get d "created_at")
    (py_or (dict_get d "timestamp")
           (VDatetime {| instant := now; tz_aware := true |})).

(** The keyed list that [sorted] orders; [clock i] is the time at which
    the key of the [i]-th document is computed. *)
Definition keyed (clock : nat -> Z) (docs : list doc) : list (value * doc) :=
  imap (fun i d => (key_fn (clock i) d, d)) docs.

(** The body of the loop up to the construction of the item, lines 90-96. *)
Definition normalize (d : doc) : doc :=
  let d := delete "_id"%string d in
  match dict_get d "timestamp" with
  | VStr s =>
      match fromisoformat s with
      | Some dt => <["timestamp"%string := VDatetime dt]> d
      | None => d
      end
  | _ => d
  end.

(** [get_recent_readings], lines 79-100. *)
Definition get_recent_readings (limit : option Z) (clock : nat -> Z) (st : store)
  : result (list SensorEvent.t) :=
  let limit := default 20 limit in
  except_http500
    (let* docs := get_documents "sensorevent" limit st in
     let* docs_sorted := sort_desc (keyed clock docs) in
     map_result (fun kd => SensorEvent_new (normalize (snd kd))) docs_sorted).

(** The route of [assess_risk]: the body is validated as an
    [InsightRequest] before the handler runs. *)
Definition post_assess (body : doc) : result InsightResponse :=
  let* payload := InsightRequest_new body in
  assess_risk payload.

End Endpoints.

(** ** An instance of the collaborators, for the examples

    A parser of timestamps of the form [YYYY-MM-DDTHH:MM:SS], which
    [iso_naive] reads as a naive datetime and which [iso_utc] also accepts
    with a final [Z], as an aware one; conversions that accept a value of the
    field's own type (and an int or a timestamp string where a float or a
    datetime is expected); and a store that is a list of documents. *)
Module Demo.

Definition digit (c : ascii) : option Z :=
  let n := Z.of_N (N_of_ascii c) in
  if (48 <=? n) && (n <=? 57) then Some (n - 48) else None.

Fixpoint number (acc : Z) (cs : list ascii) : option Z :=
  match cs with
  | [] => Some acc
  | c :: cs' => match digit c with
                | Some n => number (10 * acc + n) cs'
                | None => None
                end
  end.

Definition is_leap (y : Z) : bool :=
  ((y mod 4 =? 0) && negb (y mod 100 =? 0)) || (y mod 400 =? 0).

Definition days_in_month (y m : Z) : Z :=
  if m =? 2 then (if is_leap y then 29 else 28)
  else if (m =? 4) || (m =? 6) || (m =? 9) || (m =? 11) then 30
  else 31.

(** Days from 1970-01-01 to the given civil date. *)
Definition days_from_civil (y m d : Z) : Z :=
  let y' := if m <=? 2 then y - 1 else y in
  let era := y' / 400 in
  let yoe := y' - era * 400 in
  let mp := (m + 9) mod 12 in
  let doy := (153 * mp + 2) / 5 + d - 1 in
  let doe := yoe * 365 + yoe / 4 - yoe / 100 + doy in
  era * 146097 + doe - 719468.

Definition civil (y m d hh mm ss : Z) : option Z :=
  if (1 <=? m) && (m <=? 12) && (1 <=? d) && (d <=? days_in_month y m)
     && (hh <=? 23) && (mm <=? 59) && (ss <=? 59)
  then Some ((((days_from_civil y m d * 24 + hh) * 60 + mm) * 60 + ss) * 1000000)
  else None.

Definition iso_fields (cs : list ascii) : option (Z * list ascii) :=
  match cs with
  | y1 :: y2 :: y3 :: y4 :: "-"%char :: m1 :: m2 :: "-"%char :: d1 :: d2 ::
    "T"%char :: h1 :: h2 :: ":"%char :: n1 :: n2 :: ":"%char :: s1 :: s2 :: rest =>
      y ← number 0 [y1; y2; y3; y4];
      m ← number 0 [m1; m2];
      d ← number 0 [d1; d2];
      hh ← number 0 [h1; h2];
      mm ← number 0 [n1; n2];
      ss ← number 0 [s1; s2];
      t ← civil y m d hh mm ss;
      Some (t, rest)
  | _ => None
  end.

Definition iso_naive (s : string) : option datetime :=
  match iso_fields (list_ascii_of_string s) with
  | Some (t, []) => Some {| instant := t; tz_aware := false |}
  | _ => None
  end.

Definition iso_utc (s : string) : option datetime :=
  match iso_fields (list_ascii_of_string s) with
  | Some (t, []) => Some {| instant := t; tz_aware := false |}
  | Some (t, ["Z"%char]) => Some {| instant := t; tz_aware := true |}
  | _ => None
  end.

#[export] Instance lib : PyLib := {|
  fromisoformat := iso_naive;
  to_datetime v := match v with
                   | VDatetime d => Some d
                   | VStr s => iso_utc s
                   | _ => None
                   end;
  to_float v := match v with
                | VFloat x => Some x
                | VInt z => Some (float_of_int z)
                | _ => None
                end;
  to_int v := match v with VInt z => Some z | _ => None end;
  to_str v := match v with VStr s => Some s | _ => None end
|}.

(** The store: the documents of the one collection, oldest first.  An
    insert adds the identifier; a find returns the first [limit]. *)
#[export] Instance memory : DocumentStore := {|
  store := list doc;
  create_document _ ev st :=
    let oid := ("oid" +:+ pretty (length st))%string in
    (Ok oid, st ++ [<["_id"%string := VObjectId oid]> (SensorEvent_dump ev)]);
  get_documents _ limit st := Ok (take (Z.to_nat limit) st)
|}.

Definition reading (ts : value) (temp : Z) (gas a : Z) : doc :=
  <["timestamp"%string := ts]>
  (<["temperature_c"%string := VInt temp]>
  (<["gas_ppm"%string := VInt gas]>
  (<["aqi"%string := VInt a]> ∅))).

Definition stored (oid : string) (created : option string) (d : doc) : doc :=
  let d := <["_id"%string := VObjectId oid]> d in
  match created with
  | Some s => match iso_naive s with
              | Some t => <["created_at"%string := VDatetime t]> d
              | None => d
              end
  | None => d
  end.

(** Three stored readings, created in January, March and February; the
    timestamp of the first ends in [Z]. *)
Definition clock (i : nat) : Z := 1717200000000000 + Z.of_nat i.

Definition january : doc :=
  stored "a" (Some "2024-01-01T00:00:00"%string)
    (reading (VStr "2024-01-01T00:00:00Z") 20 1 2).
Definition march : doc :=
  stored "b" (Some "2024-03-01T00:00:00"%string)
    (reading (VStr "2024-02-01T00:00:00") 21 1 2).
Definition february : doc :=
  stored "c" (Some "2024-02-01T00:00:00"%string)
    (reading (VDatetime {| instant := 1706745600000000; tz_aware := false |}) 22 1 2).
Definition fetched : list doc := [january; march; february].

Definition recent_items : list SensorEvent.t :=
  match get_recent_readings None clock fetched with
  | Ok items => items
  | Raise _ => []
  end.

(** A reading without a creation timestamp whose timestamp ends in [Z],
    and one whose timestamp is no date at all. *)
Definition zulu : doc := reading (VStr "2024-05-01T12:00:00Z") 24 1 2.
Definition malformed : doc :=
  stored "d" (Some "2024-04-01T00:00:00"%string) (reading (VStr "not-a-date") 23 1 2).

(** A request for an assessment with a negative gas reading. *)
Definition negative_request : doc :=
  <["temperature_c"%string := VInt 25]>
  (<["gas_ppm"%string := VInt (-5)]>
  (<["aqi"%string := VInt 0]> ∅)).

End Demo.

(** ** The operations in the words of the specification *)

(** Step 1 of the scorer, [max(0, temperature_c - 25) * 1.2 + gas_ppm / 12
    + aqi / 3], where [qg] and [qa] are the two quotients. *)
Definition spec_weighted (t qg qa : float) : float :=
  fadd (fadd (fmul (pymax f0 (fsub t (float_of_int 25))) f1_2) qg) qa.

(** Step 2: clamp to the closed interval [0, 100]. *)
Definition clamp_interval (s : float) : float :=
  if fle s f0 then f0 else if fge s f100 then f100 else s.

(** The level, a priority chain on the score before clamping and rounding. *)
Definition spec_level (s : float) (g a : Z) : string :=
  if fge s (exact_of_int 70) || (g >? 800) || (a >? 150) then "High risk"
  else if fge s (exact_of_int 45) || (g >? 600) || (a >? 100) then "Elevated"
  else "Normal".

(** The advisory tips of each level. *)
Definition spec_tips (lvl : string) : list string :=
  if String.eqb lvl "High risk" then
    [ "Evacuate non-essential personnel";
      "Engage ventilation and gas suppression systems";
      "Activate incident command protocol" ]%string
  else if String.eqb lvl "Elevated" then
    [ "Increase monitoring frequency";
      "Prepare PPE and standby team";
      "Verify sensor calibration" ]%string
  else
    [ "Continue routine monitoring";
      "Maintain clear egress routes" ]%string.






(** ** Predicates on floats *)

Definition has_sign (s : bool) (x : float) : Prop :=
  match x with
  | S754_nan => False
  | S754_zero s' | S754_infinity s' | S754_finite s' _ _ => s' = s
  end.

Definition is_finite (x : float) : Prop :=
  match x with
  | S754_zero _ | S754_finite _ _ _ => True
  | _ => False
  end.

Definition not_nan (x : float) : Prop :=
  match x with
  | S754_nan => False
  | _ => True
  end.

(** [0 <= s <= 100], the bounds of [InsightResponse.score]. *)
Definition in_range (s : float) : bool :=
  fge s (exact_of_int 0) && fle s (exact_of_int 100).

(** Comparison of two finite floats with both mantissas scaled to the
    exponent [k]. *)
Definition cmp_at (k : Z) (x y : float) : comparison :=
  Z.compare (signed_mantissa x * 2 ^ (exponent x - k))
            (signed_mantissa y * 2 ^ (exponent y - k)).

(** A finite float as the fraction [num x / den x]. *)
Definition den (x : float) : Z := 2 ^ (- Z.min (exponent x) 0).
Definition num (x : float) : Z :=
  signed_mantissa x * 2 ^ (exponent x - Z.min (exponent x) 0).

(** [f p] for every [p] from 1 to [n]. *)
Fixpoint forall_pos_upto (f : positive -> bool) (n : nat) : bool :=
  match n with
  | O => true
  | S k => f (Pos.of_succ_nat k) && forall_pos_upto f k
  end.

(** * Further definitions

    What the properties of the rest of the code are stated with. *)

(** ** Scores *)

(** The float nearest to [n / 10]. *)
Definition tenth (n : Z) : float :=
  match n with
  | Zpos p => fdiv (S754_finite false p 0) (exact_of_int 10)
  | _ => f0
  end.

(** A row of the table of the tenths against the threshold [c]: a tenth at
    or below [c] compares so as a float, and one at or above [c] too. *)
Definition threshold_row (c : Z) (p : positive) : bool :=
  (if Zpos p <=? 10 * c then fle (tenth (Zpos p)) (exact_of_int c) else true) &&
  (if 10 * c <=? Zpos p then fle (exact_of_int c) (tenth (Zpos p)) else true).

(** Zero, a negative number or minus infinity. *)
Definition nonpos (x : float) : Prop :=
  match x with
  | S754_zero _ | S754_finite true _ _ | S754_infinity true => True
  | _ => False
  end.

(** ** Constructors and sort keys *)

(** The conversions leave a value of the field's own type as it is. *)
Definition accepts_own_types (lib : PyLib) : Prop :=
  (forall d, to_datetime (VDatetime d) = Some d) /\
  (forall x, to_float (VFloat x) = Some x) /\
  (forall z, to_int (VInt z) = Some z) /\
  (forall s, to_str (VStr s) = Some s).

(** The kinds of values that [<] orders: two values are comparable exactly
    when they are of one kind. *)
Inductive key_kind : Type :=
  | KNumber
  | KString
  | KObjectId
  | KDatetime (aware : bool).

Definition kind_of (v : value) : option key_kind :=
  match v with
  | VInt _ | VFloat _ => Some KNumber
  | VStr _ => Some KString
  | VObjectId _ => Some KObjectId
  | VDatetime d => Some (KDatetime (tz_aware d))
  | VNone | VDoc _ => None
  end.


(** Two documents that differ at most in the identifier. *)
Definition same_but_id (d d' : doc) : Prop :=
  delete "_id"%string d = delete "_id"%string d'.

Definition same_keyed (x y : value * doc) : Prop :=
  fst x = fst y /\ same_but_id (snd x) (snd y).

(** Two results that fail alike or hold related lists. *)
Definition same_outcome (r r' : result (list (value * doc))) : Prop :=
  match r, r' with
  | Ok l, Ok l' => Forall2 same_keyed l l'
  | Raise e, Raise e' => e = e'
  | _, _ => False
  end.

(** The fields that [SensorEvent] declares with [Field(...)] and no default. *)
Definition required_fields : list string :=
  [ "timestamp"; "temperature_c"; "gas_ppm"; "aqi" ]%string.

(** ** Database self-test ([test_database], src/main.py) *)

(** The handle [db] that the database module exports, when one is
    configured: its attribute [name], if it has one, and what
    [list_collection_names()] returns, or the text of the exception it
    raises. *)
Record Database : Type := {
  db_name : option string;
  list_collection_names : string + list string
}.

(** The dictionary [response]. *)
Record DatabaseReport : Type := {
  backend : string;
  database : string;
  database_url : option string;
  database_name : option string;
  connection_status : string;
  collections : list string
}.

(** [response[key] = v], one setter per key that the function assigns. *)
Definition set_database (v : string) (r : DatabaseReport) : DatabaseReport :=
  {| backend := backend r; database := v; database_url := database_url r;
     database_name := database_name r; connection_status := connection_status r;
     collections := collections r |}.

Definition set_database_url (v : string) (r : DatabaseReport) : DatabaseReport :=
  {| backend := backend r; database := database r; database_url := Some v;
     database_name := database_name r; connection_status := connection_status r;
     collections := collections r |}.

Definition set_database_name (v : string) (r : DatabaseReport) : DatabaseReport :=
  {| backend := backend r; database := database r; database_url := database_url r;
     database_name := Some v; connection_status := connection_status r;
     collections := collections r |}.

Definition set_connection_status (v : string) (r : DatabaseReport) : DatabaseReport :=
  {| backend := backend r; database := database r; database_url := database_url r;
     database_name := database_name r; connection_status := v;
     collections := collections r |}.

Definition set_collections (v : list string) (r : DatabaseReport) : DatabaseReport :=
  {| backend := backend r; database := database r; database_url := database_url r;
     database_name := database_name r; connection_status := connection_status r;
     collections := v |}.

(** [s[:n]]; a string is the sequence of its bytes here, which is the
    sequence of its characters when the text is ASCII. *)
Definition str_prefix (n : nat) (s : string) : string := String.substring 0 n s.

(** Truth value of what [os.getenv] returns: unset and empty are false. *)
Definition env_set (v : option string) : bool :=
  match v with
  | Some (String _ _) => true
  | _ => false
  end.

(** [test_database], lines 29-57; [db] is [None] when no database is
    configured and [url] is [os.getenv("DATABASE_URL")].  Nothing but
    [list_collection_names()] raises on a handle of this type, so the outer
    handler (lines 54-55) has nothing to catch and is left out. *)
Definition test_database (db : option Database) (url : option string) : DatabaseReport :=
  let response :=
    {| backend := "✅ Running";
       database := "❌ Not Available";
       database_url := None;
       database_name := None;
       connection_status := "Not Connected";
       collections := [] |} in
  match db with
  | Some h =>
      let response := set_database "✅ Available" response in
      let response :=
        set_database_url (if env_set url then "✅ Set" else "❌ Not Set") response in
      let response :=
        set_database_name (default "✅ Connected" (db_name h)) response in
      let response := set_connection_status "Connected" response in
      match list_collection_names h with
      | inr names =>
          let response := set_collections (take 10 names) response in
          set_database "✅ Connected & Working" response
      | inl e =>
          set_database ("⚠️ Connected but Error: " +:+ str_prefix 80 e) response
      end
  | None => set_database "⚠️ Available but not initialized" response
  end%string.

(** ** Schema exposure ([get_schema], src/main.py) *)

Module Schema.
Record collection : Type := {
  name : string;
  model : string;
  fields : list string
}.
End Schema.

(** The value of the key [collections] of what [get_schema] returns. *)
Definition get_schema : list Schema.collection :=
  [ {| Schema.name := "sensorevent";
       Schema.model := "SensorEvent";
       Schema.fields :=
         [ "timestamp: datetime";
           "temperature_c: float";
           "gas_ppm: int";
           "aqi: int";
           "location.lat: float";
           "location.lng: float";
           "notes: str?";
           "source: str" ] |} ]%string.

(** An entry [path: type] of the field list, split at the colon, and the
    path at its dot. *)
Fixpoint split_at (c : ascii) (s : string) : string * option string :=
  match s with
  | EmptyString => (EmptyString, None)
  | String a s' =>
      if Ascii.eqb a c then (EmptyString, Some s')
      else let '(l, r) := split_at c s' in (String a l, r)
  end.

Definition drop_space (s : string) : string :=
  match s with
  | String " " s' => s'
  | _ => s
  end.

(** The declared type that a value shows. *)
Definition shows_type (ty : string) (v : value) : bool :=
  match v with
  | VDatetime _ => String.eqb ty "datetime"
  | VFloat _ => String.eqb ty "float"
  | VInt _ => String.eqb ty "int"
  | VStr _ => String.eqb ty "str" || String.eqb ty "str?"
  | VNone => String.eqb ty "str?"
  | _ => false
  end.

(** An entry describes a serialised event: the field at its path is there
    and of its type; the fields of an absent location are excused. *)
Definition entry_describes (d : doc) (entry : string) : bool :=
  let '(path, ty) := split_at ":" entry in
  let ty := drop_space (default EmptyString ty) in
  match split_at "." path with
  | (k, None) =>
      match d !! k with
      | Some v => shows_type ty v
      | None => false
      end
  | (k, Some sub) =>
      match d !! k with
      | Some (VDoc fs) =>
          match (list_to_map fs : doc) !! sub with
          | Some v => shows_type ty v
          | None => false
          end
      | Some VNone => true
      | _ => false
      end
  end.

(** The top-level field that an entry names. *)
Definition entry_root (entry : string) : string :=
  fst (split_at "." (fst (split_at ":" entry))).

(** ** Sample data for the examples of the further properties *)

Module Samples.

(** A request at 62.47 degrees with no gas and clean air, and what
    [assess_risk] answers to a request. *)
Definition warm : InsightRequest :=
  {| temperature_c := fdiv (float_of_int 6247) (float_of_int 100); gas_ppm := 0; aqi := 0 |}.

Definition assessed (p : InsightRequest) : InsightResponse :=
  match assess_risk p with
  | Ok r => r
  | Raise _ => {| score := f0; level := EmptyString; tips := [] |}
  end.

(** An event with every field set. *)
Definition event : SensorEvent.t :=
  {| SensorEvent.timestamp := {| instant := 1706745600000000; tz_aware := true |};
     SensorEvent.temperature_c := float_of_int 19;
     SensorEvent.gas_ppm := 0;
     SensorEvent.aqi := 41;
     SensorEvent.location :=
       Some {| Location.lat := float_of_int 48; Location.lng := float_of_int 2 |};
     SensorEvent.notes := Some "door open"%string;
     SensorEvent.source := "bench"%string |}.

(** A reading to ingest, and the store after its ingestion into the three
    stored readings. *)
Definition body : doc := Demo.reading (VStr "2024-02-01T00:00:00") 22 1 2.

Definition after_ingest : list doc :=
  snd (post_ingest (lib := Demo.lib) (db := Demo.memory) body Demo.fetched).

(** The item built from the reading created in March. *)
Definition march_item : SensorEvent.t :=
  {| SensorEvent.timestamp := {| instant := 1706745600000000; tz_aware := false |};
     SensorEvent.temperature_c := float_of_int 21;
     SensorEvent.gas_ppm := 1;
     SensorEvent.aqi := 2;
     SensorEvent.location := None;
     SensorEvent.notes := None;
     SensorEvent.source := "raspi"%string |}.

(** A reading whose key is a string beside one whose key is a datetime, and
    the three stored readings without their identifiers. *)
Definition mixed : list doc := [Demo.zulu; Demo.february].

Definition anonymous : list doc := delete "_id"%string <$> Demo.fetched.

End Samples.

(** ** An instance of the library that reads UTC offsets

    [datetime.fromisoformat] reads [YYYY-MM-DDTHH:MM:SS] as a naive datetime
    and, followed by an offset [+HH:MM] or [-HH:MM], as an aware one: the
    instant is the local time less the offset.  The constructor converts a
    string in the same way. *)
Module Offsets.

Definition offset (cs : list ascii) : option Z :=
  match cs with
  | [sign; h1; h2; ":"%char; m1; m2] =>
      hh ← Demo.number 0 [h1; h2];
      mm ← Demo.number 0 [m1; m2];
      if (hh <=? 23) && (mm <=? 59) then
        let micros := (hh * 60 + mm) * 60 * 1000000 in
        if Ascii.eqb sign "+" then Some micros
        else if Ascii.eqb sign "-" then Some (- micros)
        else None
      else None
  | _ => None
  end.

Definition iso_offset (s : string) : option datetime :=
  match Demo.iso_fields (list_ascii_of_string s) with
  | Some (t, []) => Some {| instant := t; tz_aware := false |}
  | Some (t, rest) => off ← offset rest; Some {| instant := t - off; tz_aware := true |}
  | None => None
  end.

Definition lib : PyLib := {|
  fromisoformat := iso_offset;
  to_datetime v := match v with
                   | VDatetime d => Some d
                   | VStr s => iso_offset s
                   | _ => None
                   end;
  to_float v := match v with
                | VFloat x => Some x
                | VInt z => Some (float_of_int z)
                | _ => None
                end;
  to_int v := match v with VInt z => Some z | _ => None end;
  to_str v := match v with VStr s => Some s | _ => None end
|}.

(** Two readings without a creation timestamp, of the same day: one taken at
    05:00 at the offset +00:00, and one taken at 10:00 at the offset +09:00,
    which is 01:00 at the offset +00:00. *)
Definition utc : doc := Demo.reading (VStr "2024-01-01T05:00:00+00:00") 20 1 2.
Definition tokyo : doc := Demo.reading (VStr "2024-01-01T10:00:00+09:00") 20 1 2.
Definition stored : list doc := [utc; tokyo].

End Offsets.

(** * Facts about the float operations *)

(** ** Rounding keeps the sign and never yields a NaN *)

Lemma shr_1_nonneg mrs : 0 <= shr_m mrs -> 0 <= shr_m (shr_1 mrs).
Proof.
  destruct mrs as [m r s]; simpl.
  destruct m as [|p|p]; simpl; try lia; destruct p; simpl; lia.
Qed.

Lemma iter_shr_1_nonneg n mrs :
  0 <= shr_m mrs -> 0 <= shr_m (@SpecFloat.iter_pos shr_record shr_1 n mrs).
Proof.
  revert mrs; induction n as [n IH|n IH|]; intros mrs H; simpl.
  - apply IH, IH, shr_1_nonneg, H.
  - apply IH, IH, H.
  - apply shr_1_nonneg, H.
Qed.

Lemma shr_record_of_loc_m m l : shr_m (shr_record_of_loc m l) = m.
Proof. destruct l as [|[]]; reflexivity. Qed.

Lemma shr_fexp_nonneg m e l :
  0 <= m -> 0 <= shr_m (fst (shr_fexp prec emax m e l)).
Proof.
  intros H. unfold shr_fexp, shr.
  destruct (fexp prec emax (Zdigits2 m + e) - e) as [|n|n]; simpl;
    rewrite ?shr_record_of_loc_m; try assumption.
  apply iter_shr_1_nonneg. rewrite shr_record_of_loc_m. assumption.
Qed.

Lemma round_nearest_even_nonneg m l : 0 <= m -> 0 <= round_nearest_even m l.
Proof.
  intros H. destruct l as [|[]]; simpl; try lia.
  destruct (Z.even m); lia.
Qed.

Lemma binary_round_aux_sign s m e l :
  0 <= m -> has_sign s (binary_round_aux prec emax s m e l).
Proof.
  intros H. unfold binary_round_aux.
  pose proof (shr_fexp_nonneg m e l H) as H1.
  destruct (shr_fexp prec emax m e l) as [mrs' e'] eqn:E1. simpl in H1.
  pose proof (shr_fexp_nonneg _ e' loc_Exact
                (round_nearest_even_nonneg _ (loc_of_shr_record mrs') H1)) as H2.
  destruct (shr_fexp prec emax _ e' loc_Exact) as [mrs'' e''] eqn:E2. simpl in H2.
  destruct (shr_m mrs'') as [|p|p]; simpl; try reflexivity; try lia.
  destruct (e'' <=? emax - prec); reflexivity.
Qed.

Lemma binary_normalize_not_nan m e : not_nan (binary_normalize prec emax m e false).
Proof.
  destruct m as [|p|p]; simpl; [exact I| |];
    unfold binary_round;
    destruct (shl_align _ _ _) as [mz ez];
    match goal with
    | |- not_nan (binary_round_aux _ _ ?s ?m ?e ?l) =>
        pose proof (binary_round_aux_sign s m e l ltac:(lia)) as H;
        destruct (binary_round_aux prec emax s m e l); simpl in *; tauto
    end.
Qed.

Lemma binary_normalize_pos_sign p e :
  has_sign false (binary_normalize prec emax (Zpos p) e false).
Proof.
  simpl. unfold binary_round. destruct (shl_align _ _ _) as [mz ez].
  apply binary_round_aux_sign. lia.
Qed.

(** ** Comparison of finite floats at a common scale *)

Lemma fcompare_finite x y :
  is_finite x -> is_finite y ->
  fcompare x y = Some (cmp_at (Z.min (exponent x) (exponent y)) x y).
Proof. destruct x, y; simpl; intros; try tauto; reflexivity. Qed.

Lemma cmp_at_rescale k k' x y :
  k' <= k -> k <= exponent x -> k <= exponent y ->
  cmp_at k' x y = cmp_at k x y.
Proof.
  intros Hk Hx Hy. unfold cmp_at.
  replace (exponent x - k') with ((exponent x - k) + (k - k')) by lia.
  replace (exponent y - k') with ((exponent y - k) + (k - k')) by lia.
  rewrite !Z.pow_add_r by lia. rewrite !Z.mul_assoc.
  assert (0 < 2 ^ (k - k')) as Hp by (apply Z.pow_pos_nonneg; lia).
  generalize dependent (2 ^ (k - k')). intros p Hp.
  generalize (signed_mantissa x * 2 ^ (exponent x - k)).
  generalize (signed_mantissa y * 2 ^ (exponent y - k)). intros b a.
  destruct (Z.compare_spec a b), (Z.compare_spec (a * p) (b * p)); try reflexivity; nia.
Qed.

Lemma fcompare_finite_at k x y :
  is_finite x -> is_finite y -> k <= exponent x -> k <= exponent y ->
  fcompare x y = Some (cmp_at k x y).
Proof.
  intros Fx Fy Hx Hy. rewrite fcompare_finite by assumption. f_equal.
  symmetry. apply cmp_at_rescale; lia.
Qed.

Lemma flt_f0_positive x :
  flt f0 x = true ->
  x = S754_infinity false \/ exists m e, x = S754_finite false m e.
Proof.
  unfold flt, f0. destruct x as [s|s| |s m e]; try discriminate.
  - destruct s; [discriminate|]. auto.
  - destruct s; [|eauto].
    rewrite fcompare_finite by exact I. unfold cmp_at.
    cbn [signed_mantissa exponent cond_Zopp].
    destruct (Z.compare_spec (0 * 2 ^ (0 - Z.min 0 e))
                (- Z.pos m * 2 ^ (e - Z.min 0 e))); try discriminate.
    assert (0 < 2 ^ (e - Z.min 0 e)) by (apply Z.pow_pos_nonneg; lia). nia.
Qed.

(** ** Signs of the terms of the weighted sum *)

Lemma pymax_f0_sign x : has_sign false (pymax f0 x).
Proof.
  unfold pymax, fgt. destruct (flt f0 x) eqn:E; [|reflexivity].
  apply flt_f0_positive in E. destruct E as [->|(m & e & ->)]; reflexivity.
Qed.

Lemma fmul_sign_false x y :
  has_sign false x -> is_finite y -> has_sign false y -> y <> S754_zero false ->
  has_sign false (fmul x y).
Proof.
  destruct x as [sx|sx| |sx mx ex], y as [sy|sy| |sy my ey]; simpl;
    intros Hx Fy Hy Ny; subst; try tauto; try reflexivity.
  apply binary_round_aux_sign. lia.
Qed.

Lemma fadd_f0_l x : has_sign false x -> fadd f0 x = x.
Proof. destruct x as [s|s| |s m e]; simpl; intros H; subst; try tauto; reflexivity. Qed.

Lemma fadd_not_nan x y :
  not_nan x -> is_finite y -> not_nan (fadd x y).
Proof.
  destruct x as [sx|sx| |sx mx ex], y as [sy|sy| |sy my ey]; simpl;
    intros Hx Hy; try tauto.
  - destruct sx, sy; exact I.
  - apply binary_normalize_not_nan.
Qed.

Lemma has_sign_not_nan s x : has_sign s x -> not_nan x.
Proof. destruct x; simpl; tauto. Qed.

Lemma div_eucl_nonneg a b : 0 <= a -> 0 < b -> 0 <= fst (Z.div_eucl a b).
Proof.
  intros Ha Hb. change (fst (Z.div_eucl a b)) with (a / b).
  apply Z.div_pos; assumption.
Qed.

Lemma fdiv_finite_not_nan sx mx ex sy my ey :
  not_nan (fdiv (S754_finite sx mx ex) (S754_finite sy my ey)).
Proof.
  unfold fdiv; simpl. unfold SFdiv_core_binary.
  set (m' := match _ - _ - _ with Z0 => _ | Zpos _ => _ | Zneg _ => _ end).
  assert (0 <= m') as Hm'.
  { subst m'. destruct (_ - _ - _); try lia. apply Z.shiftl_nonneg. lia. }
  pose proof (div_eucl_nonneg m' (Zpos my) Hm' ltac:(lia)) as Hq.
  destruct (Z.div_eucl m' (Z.pos my)) as [q r]. simpl in Hq.
  eapply has_sign_not_nan, binary_round_aux_sign. exact Hq.
Qed.

Lemma int_truediv_finite a b q : int_truediv a b = Ok q -> is_finite q.
Proof.
  unfold int_truediv. destruct (b =? 0) eqn:Eb; [discriminate|].
  apply Z.eqb_neq in Eb.
  destruct a as [|pa|pa], b as [|pb|pb]; try lia; simpl exact_of_int;
  match goal with
  | |- context [fdiv (S754_zero _) _] => simpl; intros [= <-]; exact I
  | |- context [fdiv (S754_finite ?sx ?mx ?ex) (S754_finite ?sy ?my ?ey)] =>
      pose proof (fdiv_finite_not_nan sx mx ex sy my ey) as H;
      destruct (fdiv (S754_finite sx mx ex) (S754_finite sy my ey));
      simpl in H; try tauto; try discriminate; intros [= <-]; exact I
  end.
Qed.

(** ** int / int stays finite below 2^1023 *)

Lemma digits2_pos_bound p k : Zpos p < 2 ^ k -> Zpos (digits2_pos p) <= k.
Proof.
  revert k. induction p as [p IH|p IH|]; intros k Hk; cbn [digits2_pos].
  - assert (0 < k) as Hk0.
    { destruct (Z.lt_trichotomy k 0) as [?|[->|?]]; [|cbn in Hk; lia|lia].
      rewrite Z.pow_neg_r in Hk by lia. lia. }
    rewrite Pos2Z.inj_succ.
    assert (Z.pos p < 2 ^ (k - 1)).
    { replace k with (1 + (k - 1)) in Hk by lia. rewrite Z.pow_add_r in Hk by lia.
      change (2 ^ 1) with 2 in Hk. lia. }
    specialize (IH (k - 1) ltac:(assumption)). lia.
  - assert (0 < k) as Hk0.
    { destruct (Z.lt_trichotomy k 0) as [?|[->|?]]; [|cbn in Hk; lia|lia].
      rewrite Z.pow_neg_r in Hk by lia. lia. }
    rewrite Pos2Z.inj_succ.
    assert (Z.pos p < 2 ^ (k - 1)).
    { replace k with (1 + (k - 1)) in Hk by lia. rewrite Z.pow_add_r in Hk by lia.
      change (2 ^ 1) with 2 in Hk. lia. }
    specialize (IH (k - 1) ltac:(assumption)). lia.
  - destruct (Z.lt_trichotomy k 0) as [?|[->|?]]; [|cbn in Hk; lia|lia].
    rewrite Z.pow_neg_r in Hk by lia. lia.
Qed.

Lemma Zdigits2_bound m k : 0 <= m < 2 ^ k -> 0 <= k -> Zdigits2 m <= k.
Proof.
  intros [H0 Hk] Hk0. destruct m as [|p|p]; cbn [Zdigits2]; [lia| |lia].
  apply digits2_pos_bound, Hk.
Qed.

Lemma shr_1_m mrs : 0 <= shr_m mrs -> shr_m (shr_1 mrs) = shr_m mrs / 2.
Proof.
  destruct mrs as [m r s]; cbn [shr_m]. intros Hm.
  destruct m as [|p|p]; [reflexivity| |lia].
  destruct p as [p|p|]; cbn [shr_1 shr_m].
  - rewrite Pos2Z.pos_xI. rewrite Z.mul_comm, Z.div_add_l by lia. reflexivity.
  - rewrite Pos2Z.pos_xO. rewrite Z.mul_comm, Z.div_mul by lia. reflexivity.
  - reflexivity.
Qed.

Lemma pow2_xO n : 2 ^ Z.pos n~0 = 2 ^ Z.pos n * 2 ^ Z.pos n.
Proof. rewrite <- Z.pow_add_r by lia. f_equal. lia. Qed.

Lemma pow2_xI n : 2 ^ Z.pos n~1 = 2 * (2 ^ Z.pos n * 2 ^ Z.pos n).
Proof.
  rewrite <- Z.pow_add_r by lia. rewrite <- (Z.pow_succ_r 2) by lia. f_equal. lia.
Qed.

Lemma iter_shr_1_m n mrs :
  0 <= shr_m mrs -> shr_m (@SpecFloat.iter_pos shr_record shr_1 n mrs) = shr_m mrs / 2 ^ Zpos n.
Proof.
  revert mrs. induction n as [n IH|n IH|]; intros mrs Hm; cbn [SpecFloat.iter_pos].
  - rewrite IH by (apply iter_shr_1_nonneg, shr_1_nonneg, Hm).
    rewrite IH by (apply shr_1_nonneg, Hm). rewrite shr_1_m by assumption.
    assert (0 < 2 ^ Z.pos n) by (apply Z.pow_pos_nonneg; lia).
    rewrite !Z.div_div by lia. rewrite pow2_xI. reflexivity.
  - rewrite IH by (apply iter_shr_1_nonneg, Hm). rewrite IH by assumption.
    assert (0 < 2 ^ Z.pos n) by (apply Z.pow_pos_nonneg; lia).
    rewrite !Z.div_div by lia. rewrite pow2_xO. reflexivity.
  - rewrite shr_1_m by assumption. reflexivity.
Qed.

(** [fexp] at binary64. *)
Lemma fexp_le x : x <= 1024 -> fexp prec emax x <= 971.
Proof. unfold fexp, emin, prec, emax. lia. Qed.

Lemma fexp_below x k : x <= k -> 0 <= k -> fexp prec emax x <= k.
Proof. unfold fexp, emin, prec, emax. lia. Qed.

Lemma round_nearest_even_le m l : round_nearest_even m l <= m + 1.
Proof. destruct l as [|[]]; cbn; try lia. destruct (Z.even m); lia. Qed.

(** One shift of [binary_round_aux]: the exponent stays at most 971 and the
    value below 2^1023. *)
Lemma shr_fexp_bounds m e l k :
  0 <= m -> e <= 971 -> 0 <= k <= 1024 -> 0 <= k - e -> m < 2 ^ (k - e) ->
  let '(mrs, e') := shr_fexp prec emax m e l in
  0 <= shr_m mrs /\ e <= e' <= 971 /\ shr_m mrs < 2 ^ (k - e').
Proof.
  intros Hm He Hk Hke Hlt.
  pose proof (shr_fexp_nonneg m e l Hm) as Hnn.
  assert (Zdigits2 m + e <= 1024) as Hd.
  { pose proof (Zdigits2_bound m (k - e) (conj Hm Hlt) Hke). lia. }
  pose proof (fexp_le _ Hd) as Hf.
  assert (fexp prec emax (Zdigits2 m + e) <= k) as Hfk.
  { apply fexp_below; [|lia].
    pose proof (Zdigits2_bound m (k - e) (conj Hm Hlt) Hke). lia. }
  unfold shr_fexp, shr in *.
  destruct (fexp prec emax (Zdigits2 m + e) - e) as [|n|n] eqn:En;
    cbn [fst] in Hnn; rewrite ?shr_record_of_loc_m in *.
  - repeat split; try lia.
  - split; [exact Hnn|]. split; [lia|].
    rewrite iter_shr_1_m by (rewrite shr_record_of_loc_m; exact Hm).
    rewrite shr_record_of_loc_m.
    assert (0 < 2 ^ Z.pos n) by (apply Z.pow_pos_nonneg; lia).
    apply Z.div_lt_upper_bound; [lia|].
    rewrite <- Z.pow_add_r by lia.
    replace (Z.pos n + (k - (e + Z.pos n))) with (k - e) by lia. exact Hlt.
  - repeat split; try lia.
Qed.

Lemma binary_round_aux_finite s m e l :
  0 <= m -> e <= 971 -> m < 2 ^ (1023 - e) ->
  is_finite (binary_round_aux prec emax s m e l).
Proof.
  intros Hm He Hlt. unfold binary_round_aux.
  pose proof (shr_fexp_bounds m e l 1023 Hm He ltac:(lia) ltac:(lia) Hlt) as H1.
  destruct (shr_fexp prec emax m e l) as [mrs' e'].
  destruct H1 as (Hm' & He' & Hlt').
  set (m2 := round_nearest_even (shr_m mrs') (loc_of_shr_record mrs')).
  assert (0 <= m2) as Hm2 by (apply round_nearest_even_nonneg, Hm').
  assert (m2 < 2 ^ (1024 - e')) as Hlt2.
  { pose proof (round_nearest_even_le (shr_m mrs') (loc_of_shr_record mrs')).
    replace (1024 - e') with (1 + (1023 - e')) by lia.
    rewrite Z.pow_add_r by lia. change (2 ^ 1) with 2. fold m2 in H. lia. }
  pose proof (shr_fexp_bounds m2 e' loc_Exact 1024 Hm2 ltac:(lia) ltac:(lia) ltac:(lia) Hlt2) as H2.
  destruct (shr_fexp prec emax m2 e' loc_Exact) as [mrs'' e''].
  destruct H2 as (Hm'' & He'' & _).
  destruct (shr_m mrs'') as [|p|p]; [exact I| |lia].
  replace (e'' <=? emax - prec) with true; [exact I|].
  symmetry. apply Z.leb_le. unfold emax, prec. lia.
Qed.

Lemma fdiv_int_finite sa ma sb mb :
  Zpos ma < 2 ^ 1023 ->
  is_finite (fdiv (S754_finite sa ma 0) (S754_finite sb mb 0)).
Proof.
  intros Ha. unfold fdiv. cbn [SFdiv]. unfold SFdiv_core_binary.
  set (e' := Z.min (fexp prec emax (Zdigits2 (Z.pos ma) + 0 - (Zdigits2 (Z.pos mb) + 0))) (0 - 0)).
  assert (e' <= 0) as He' by (subst e'; lia).
  set (m' := match 0 - 0 - e' with
             | 0 => Z.pos ma
             | Z.pos _ => Z.shiftl (Z.pos ma) (0 - 0 - e')
             | Z.neg _ => 0
             end).
  assert (0 <= m' < 2 ^ (1023 - e')) as Hm'.
  { subst m'. destruct (0 - 0 - e') as [|s|s] eqn:Es; try lia.
    - replace e' with 0 by lia. cbn [Z.sub Z.opp Z.add]. lia.
    - rewrite Z.shiftl_mul_pow2 by lia.
      replace (1023 - e') with (1023 + Z.pos s) by lia.
      rewrite Z.pow_add_r by lia.
      assert (0 < 2 ^ Z.pos s) by (apply Z.pow_pos_nonneg; lia). nia. }
  pose proof (div_eucl_nonneg m' (Z.pos mb) ltac:(lia) ltac:(lia)) as Hq.
  assert (fst (Z.div_eucl m' (Z.pos mb)) <= m') as Hqm.
  { change (fst (Z.div_eucl m' (Z.pos mb))) with (m' / Z.pos mb).
    apply Z.div_le_upper_bound; [lia|]. nia. }
  destruct (Z.div_eucl m' (Z.pos mb)) as [q r]. cbn [fst] in Hq, Hqm.
  apply binary_round_aux_finite; lia.
Qed.

(** int / int does not overflow below 2^1023. *)
Lemma int_truediv_in_range a b :
  b <> 0 -> Z.abs a < 2 ^ 1023 -> exists q, int_truediv a b = Ok q.
Proof.
  intros Hb Ha. unfold int_truediv.
  destruct (Z.eqb_spec b 0) as [->|_]; [lia|].
  destruct a as [|ma|ma], b as [|mb|mb]; try lia; cbn [exact_of_int];
    try (cbn; eauto; fail);
    match goal with
    | |- context [fdiv (S754_finite ?sa ?ma 0) (S754_finite ?sb ?mb 0)] =>
        pose proof (fdiv_int_finite sa ma sb mb ltac:(lia)) as Hf;
        destruct (fdiv (S754_finite sa ma 0) (S754_finite sb mb 0));
        cbn in Hf; try tauto; eauto
    end.
Qed.

(** ** Comparison with the integers and with 100.0 *)

Lemma den_pos x : 0 < den x.
Proof. apply Z.pow_pos_nonneg; lia. Qed.

Lemma exact_of_int_finite c : is_finite (exact_of_int c).
Proof. destruct c; exact I. Qed.

Lemma exact_of_int_parts c :
  signed_mantissa (exact_of_int c) = c /\ exponent (exact_of_int c) = 0.
Proof. destruct c; split; reflexivity. Qed.

Lemma fcompare_int_r x c :
  is_finite x -> fcompare x (exact_of_int c) = Some (num x ?= c * den x).
Proof.
  intros Fx. destruct (exact_of_int_parts c) as [Hm He].
  rewrite (fcompare_finite_at (Z.min (exponent x) 0));
    [|assumption|apply exact_of_int_finite|lia|lia].
  unfold cmp_at, num, den. rewrite Hm, He. reflexivity.
Qed.

Lemma fcompare_int_l x c :
  is_finite x -> fcompare (exact_of_int c) x = Some (c * den x ?= num x).
Proof.
  intros Fx. destruct (exact_of_int_parts c) as [Hm He].
  rewrite (fcompare_finite_at (Z.min (exponent x) 0));
    [|apply exact_of_int_finite|assumption|lia|lia].
  unfold cmp_at, num, den. rewrite Hm, He. reflexivity.
Qed.

Lemma f100_scale k : k <= -46 -> 7036874417766400 * 2 ^ (-46 - k) = 100 * 2 ^ (0 - k).
Proof.
  intros Hk. replace (0 - k) with (46 + (-46 - k)) by lia.
  rewrite Z.pow_add_r by lia. change (2 ^ 46) with 70368744177664. lia.
Qed.

Lemma fcompare_f100_r x : fcompare x f100 = fcompare x (exact_of_int 100).
Proof.
  destruct x as [s|s| |s m e]; try reflexivity.
  set (k := Z.min e (-46)).
  rewrite (fcompare_finite_at k (S754_finite s m e) f100) by (simpl; trivial; lia).
  rewrite (fcompare_finite_at k (S754_finite s m e) (exact_of_int 100)) by (simpl; trivial; lia).
  unfold cmp_at. cbn [signed_mantissa exponent f100 exact_of_int cond_Zopp].
  rewrite f100_scale by lia. reflexivity.
Qed.

Lemma fcompare_antisym x y : fcompare y x = CompOpp <$> fcompare x y.
Proof.
  destruct x as [sx|sx| |sx mx ex], y as [sy|sy| |sy my ey];
    try reflexivity;
    try (destruct sx; reflexivity); try (destruct sy; reflexivity);
    try (destruct sx, sy; reflexivity);
    cbn [fcompare fmap option_fmap option_map]; f_equal;
    rewrite Z.compare_antisym; rewrite (Z.min_comm _ _); reflexivity.
Qed.

Lemma fcompare_f100_l x : fcompare f100 x = fcompare (exact_of_int 100) x.
Proof. rewrite !(fcompare_antisym x). rewrite fcompare_f100_r. reflexivity. Qed.

Lemma flt_f100 x : flt x f100 = flt x (exact_of_int 100).
Proof. unfold flt. rewrite fcompare_f100_r. reflexivity. Qed.

Lemma fle_f100_l x : fle f100 x = fle (exact_of_int 100) x.
Proof. unfold fle. rewrite fcompare_f100_l. reflexivity. Qed.

Lemma fle_f100_r x : fle x f100 = fle x (exact_of_int 100).
Proof. unfold fle. rewrite fcompare_f100_r. reflexivity. Qed.

Ltac fcmp_finite :=
  unfold fge, fgt, fle, flt in *;
  change f0 with (exact_of_int 0) in *;
  rewrite ?fcompare_f100_r, ?fcompare_f100_l in *;
  rewrite ?fcompare_int_r, ?fcompare_int_l in * by (assumption || exact I);
  repeat match goal with
         | H : context [Z.compare ?a ?b] |- _ => destruct (Z.compare_spec a b)
         | |- context [Z.compare ?a ?b] => destruct (Z.compare_spec a b)
         end;
  try discriminate; try reflexivity; try lia.

Lemma clamp_cases s :
  clamp s = f0 \/ clamp s = f100 \/
  (clamp s = s /\ flt f0 s = true /\ flt s f100 = true).
Proof.
  unfold clamp, pymax, pymin, fgt.
  destruct (flt s f100) eqn:E1.
  - destruct (flt f0 s) eqn:E2; auto.
  - right; left. reflexivity.
Qed.

Lemma clamp_eq_interval s : not_nan s -> clamp s = clamp_interval s.
Proof.
  intros Hs. unfold clamp, clamp_interval, pymax, pymin.
  destruct s as [sg|sg| |sg m e];
    [destruct sg; reflexivity | destruct sg; reflexivity | destruct Hs | ].
  pose proof (den_pos (S754_finite sg m e)) as Hd.
  assert (is_finite (S754_finite sg m e)) as Hf by exact I.
  clear Hs. generalize dependent (S754_finite sg m e). intros x Hd Hf.
  destruct (flt x f100) eqn:E1, (fle x f0) eqn:E2, (fge x f100) eqn:E3;
    try (destruct (fgt x f0) eqn:E4); try reflexivity;
    exfalso; fcmp_finite.
Qed.

(** Thresholds on the clamped and on the unclamped score. *)
Lemma fge_clamp s c :
  not_nan s -> 0 < c <= 100 -> fge (clamp s) (exact_of_int c) = fge s (exact_of_int c).
Proof.
  intros Hs Hc.
  assert (fge f0 (exact_of_int c) = false) as H0.
  { pose proof (den_pos f0). assert (is_finite f0) by exact I. fcmp_finite;
      unfold num, den in *; simpl in *; lia. }
  assert (fge f100 (exact_of_int c) = true) as H100.
  { unfold fge. rewrite fle_f100_r. unfold fle. rewrite fcompare_int_l by exact I.
    change (den (exact_of_int 100)) with 1. change (num (exact_of_int 100)) with 100.
    destruct (Z.compare_spec (c * 1) 100); try reflexivity; lia. }
  assert (is_finite s \/ s = S754_infinity false \/ s = S754_infinity true) as [Hf|[->| ->]].
  { destruct s as [sg|[]| |sg m e]; simpl in *; tauto. }
  - pose proof (den_pos s) as Hd.
    destruct (clamp_cases s) as [E|[E|[E _]]]; rewrite E; [| |reflexivity].
    + rewrite H0. symmetry. clear H0 H100.
      unfold clamp, pymax, pymin, fgt in E.
      destruct (flt s f100) eqn:E1; [|discriminate].
      destruct (flt f0 s) eqn:E2.
      * subst s. discriminate.
      * clear E. fcmp_finite; nia.
    + rewrite H100. symmetry. clear H0 H100.
      unfold clamp, pymax, pymin, fgt in E.
      destruct (flt s f100) eqn:E1.
      * destruct (flt f0 s) eqn:E2; [|discriminate].
        subst s. discriminate.
      * clear E. fcmp_finite; nia.
  - change (clamp (S754_infinity false)) with f100. rewrite H100.
    destruct c; reflexivity.
  - change (clamp (S754_infinity true)) with f0. rewrite H0.
    destruct c; reflexivity.
Qed.

Lemma classify_clamp s g a :
  not_nan s -> classify (clamp s) g a = classify s g a.
Proof.
  intros Hs. unfold classify. rewrite !fge_clamp by (assumption || lia). reflexivity.
Qed.

(** The weighted sum is never a NaN. *)
Lemma temperature_term_sign t :
  has_sign false (fmul (pymax f0 (fsub t (float_of_int 25))) f1_2).
Proof.
  apply fmul_sign_false; [apply pymax_f0_sign|exact I|reflexivity|discriminate].
Qed.

Lemma weighted_score_eq t g a qg qa :
  int_truediv g 12 = Ok qg -> int_truediv a 3 = Ok qa ->
  weighted_score {| temperature_c := t; gas_ppm := g; aqi := a |}
  = Ok (fadd (fadd (fmul (pymax f0 (fsub t (float_of_int 25))) f1_2) qg) qa).
Proof.
  intros Hg Ha. unfold weighted_score. cbn [temperature_c gas_ppm aqi].
  rewrite Hg, Ha. cbn [bind]. rewrite fadd_f0_l by apply temperature_term_sign.
  reflexivity.
Qed.

Lemma weighted_score_inv p s :
  weighted_score p = Ok s ->
  exists qg qa, int_truediv (gas_ppm p) 12 = Ok qg /\ int_truediv (aqi p) 3 = Ok qa.
Proof.
  unfold weighted_score.
  destruct (int_truediv (gas_ppm p) 12) as [qg|]; [|discriminate].
  destruct (int_truediv (aqi p) 3) as [qa|]; [|discriminate].
  eauto.
Qed.

Lemma weighted_score_not_nan p s : weighted_score p = Ok s -> not_nan s.
Proof.
  intros H. destruct (weighted_score_inv p s H) as (qg & qa & Hg & Ha).
  destruct p as [t g a]. cbn [gas_ppm aqi] in *.
  rewrite (weighted_score_eq t g a qg qa Hg Ha) in H. injection H as <-.
  apply fadd_not_nan; [|eapply int_truediv_finite; eassumption].
  apply fadd_not_nan; [|eapply int_truediv_finite; eassumption].
  eapply has_sign_not_nan, temperature_term_sign.
Qed.

Lemma forall_pos_upto_spec f n :
  forall_pos_upto f n = true -> forall p, (Pos.to_nat p <= n)%nat -> f p = true.
Proof.
  induction n as [|k IH]; simpl; intros H p Hp.
  - pose proof (Pos2Nat.is_pos p). lia.
  - apply andb_true_iff in H as [H1 H2].
    destruct (Nat.eq_dec (Pos.to_nat p) (S k)) as [E|E].
    + replace p with (Pos.of_succ_nat k); [exact H1|].
      apply Pos2Nat.inj. rewrite SuccNat2Pos.id_succ. lia.
    + apply IH; [assumption|lia].
Qed.

Lemma tenths_table :
  forall_pos_upto (fun n => in_range (fdiv (S754_finite false n 0) (exact_of_int 10)))
                  1000 = true.
Proof. vm_compute. reflexivity. Qed.

Lemma round_half_even_bounds n d b :
  0 < d -> 0 <= n < b * d -> 0 <= round_half_even n d <= b.
Proof.
  intros Hd Hn. unfold round_half_even.
  assert (0 <= n / d) by (apply Z.div_pos; lia).
  assert (n / d < b) by (apply Z.div_lt_upper_bound; lia).
  destruct (2 * (n mod d) ?= d); [destruct (Z.even (n / d))| |]; lia.
Qed.

Lemma tenths_bounds m e :
  flt (S754_finite false m e) f100 = true -> 0 <= tenths m e <= 1000.
Proof.
  intros H. rewrite flt_f100 in H. unfold flt in H.
  rewrite fcompare_int_r in H by exact I.
  unfold num, den in H. cbn [signed_mantissa exponent cond_Zopp] in H.
  destruct (Z.compare_spec (Z.pos m * 2 ^ (e - Z.min e 0)) (100 * 2 ^ (- Z.min e 0)))
    as [| Hlt |]; try discriminate. clear H.
  unfold tenths. destruct (Z.leb_spec 0 e) as [He|He].
  - rewrite Z.min_r in Hlt by lia. rewrite Z.sub_0_r in Hlt. simpl (2 ^ (- 0)) in Hlt.
    assert (0 < 2 ^ e) by (apply Z.pow_pos_nonneg; lia). nia.
  - rewrite Z.min_l in Hlt by lia. rewrite Z.sub_diag, Z.mul_1_r in Hlt.
    apply round_half_even_bounds; [apply Z.pow_pos_nonneg; lia | lia].
Qed.

Lemma round1_clamp_in_range s : in_range (round1 (clamp s)) = true.
Proof.
  destruct (clamp_cases s) as [E|[E|(E & H0 & H100)]]; rewrite E.
  - reflexivity.
  - vm_compute. reflexivity.
  - apply flt_f0_positive in H0 as [->|(m & e & ->)]; [discriminate|].
    pose proof (tenths_bounds m e H100) as Hb. unfold round1.
    destruct (tenths m e) as [|n|n]; [reflexivity| |lia].
    apply (forall_pos_upto_spec _ _ tenths_table). lia.
Qed.

(** ** The comparison is [SFcompare] on binary64 numbers *)

Lemma digits2_pos_spec p :
  2 ^ (Zpos (digits2_pos p) - 1) <= Zpos p < 2 ^ Zpos (digits2_pos p).
Proof.
  induction p as [p IH|p IH|]; cbn [digits2_pos]; [| |cbn; lia];
    rewrite Pos2Z.inj_succ;
    replace (Z.succ (Z.pos (digits2_pos p)) - 1) with (Z.succ (Z.pos (digits2_pos p) - 1)) by lia;
    rewrite !Z.pow_succ_r by lia; lia.
Qed.

(** A canonical mantissa has 53 digits, or fewer at the least exponent. *)
Lemma canonical_cases m e :
  canonical_mantissa prec emax m e = true ->
  Zpos m < 2 ^ 53 /\ (e = -1074 \/ 2 ^ 52 <= Zpos m).
Proof.
  unfold canonical_mantissa, fexp, emin, prec, emax. intros H. apply Z.eqb_eq in H.
  pose proof (digits2_pos_spec m) as [Hlo Hhi].
  assert (Z.pos (digits2_pos m) <= 53) as Hd by lia.
  split.
  - eapply Z.lt_le_trans; [exact Hhi|]. apply Z.pow_le_mono_r; lia.
  - destruct (Z.eq_dec e (-1074)) as [?|Hne]; [auto|right].
    assert (Z.pos (digits2_pos m) = 53) as Hd53 by lia.
    rewrite Hd53 in Hlo. exact Hlo.
Qed.

Lemma compare_scaled_lt m1 e1 m2 e2 :
  canonical_mantissa prec emax m1 e1 = true ->
  canonical_mantissa prec emax m2 e2 = true ->
  e1 < e2 -> Zpos m1 < Zpos m2 * 2 ^ (e2 - e1).
Proof.
  intros H1 H2 He.
  pose proof H1 as H1'. unfold canonical_mantissa, fexp, emin, prec, emax in H1'.
  apply Z.eqb_eq in H1'.
  apply canonical_cases in H1 as [Hhi1 _]. apply canonical_cases in H2 as [_ [->|Hlo2]]; [lia|].
  assert (2 ^ 1 <= 2 ^ (e2 - e1)) by (apply Z.pow_le_mono_r; lia).
  change (2 ^ 1) with 2 in *. change (2 ^ 53) with (2 * 2 ^ 52) in Hhi1. nia.
Qed.

Lemma fcompare_valid x y :
  valid_binary prec emax x = true -> valid_binary prec emax y = true ->
  fcompare x y = SFcompare x y.
Proof.
  destruct x as [sx|sx| |sx mx ex], y as [sy|sy| |sy my ey]; try reflexivity.
  - intros _ _. cbn [fcompare SFcompare signed_mantissa exponent]. f_equal.
    assert (0 < 2 ^ (ey - Z.min 0 ey)) by (apply Z.pow_pos_nonneg; lia).
    destruct sy; cbn [cond_Zopp];
      match goal with |- (?a ?= ?b) = _ => destruct (Z.compare_spec a b) end;
      try reflexivity; nia.
  - intros _ _. cbn [fcompare SFcompare signed_mantissa exponent]. f_equal.
    assert (0 < 2 ^ (ex - Z.min ex 0)) by (apply Z.pow_pos_nonneg; lia).
    destruct sx; cbn [cond_Zopp];
      match goal with |- (?a ?= ?b) = _ => destruct (Z.compare_spec a b) end;
      try reflexivity; nia.
  - cbn [valid_binary]. unfold bounded. intros Hx Hy.
    apply andb_true_iff in Hx as [Hx _], Hy as [Hy _].
    cbn [fcompare SFcompare signed_mantissa exponent]. f_equal.
    destruct (Z.compare_spec ex ey) as [->|Hlt|Hgt].
    + rewrite Z.min_id, Z.sub_diag. cbn [Z.pow]. rewrite !Z.mul_1_r.
      destruct sx, sy; reflexivity.
    + rewrite Z.min_l by lia. rewrite Z.sub_diag. cbn [Z.pow]. rewrite Z.mul_1_r.
      pose proof (compare_scaled_lt mx ex my ey Hx Hy Hlt).
      assert (0 < 2 ^ (ey - ex)) by (apply Z.pow_pos_nonneg; lia).
      destruct sx, sy; cbn [cond_Zopp];
        match goal with |- (?a ?= ?b) = _ => destruct (Z.compare_spec a b) end;
        try reflexivity; nia.
    + rewrite Z.min_r by lia. rewrite Z.sub_diag. cbn [Z.pow]. rewrite Z.mul_1_r.
      pose proof (compare_scaled_lt my ey mx ex Hy Hx ltac:(lia)).
      assert (0 < 2 ^ (ex - ey)) by (apply Z.pow_pos_nonneg; lia).
      destruct sx, sy; cbn [cond_Zopp];
        match goal with |- (?a ?= ?b) = _ => destruct (Z.compare_spec a b) end;
        try reflexivity; nia.
Qed.

(** The literals are binary64 numbers, and [f1_2] is the float nearest to
    12/10. *)
Example literals_valid :
  valid_binary prec emax f100 = true /\ valid_binary prec emax f1_2 = true /\
  f100 = float_of_int 100 /\ f1_2 = fdiv (float_of_int 12) (float_of_int 10).
Proof. repeat split; vm_compute; reflexivity. Qed.

(** [round(x, 1)] on 0.25, 0.35, 0.45 and 0.75: ties go to the even digit,
    and it is the binary value that is rounded (0.35 lies below 0.35). *)
Example round1_examples :
  round1 (fdiv (float_of_int 25) (float_of_int 100)) = fdiv (float_of_int 2) (float_of_int 10) /\
  round1 (fdiv (float_of_int 35) (float_of_int 100)) = fdiv (float_of_int 3) (float_of_int 10) /\
  round1 (fdiv (float_of_int 45) (float_of_int 100)) = fdiv (float_of_int 5) (float_of_int 10) /\
  round1 (fdiv (float_of_int 75) (float_of_int 100)) = fdiv (float_of_int 8) (float_of_int 10).
Proof. repeat split; vm_compute; reflexivity. Qed.

(** * The risk scorer *)

Lemma int_truediv_raises a b e : int_truediv a b = Raise e -> b <> 0 -> e = OverflowError.
Proof.
  unfold int_truediv. destruct (Z.eqb_spec b 0) as [->|_]; [intros _ Hb; lia|].
  destruct (fdiv (exact_of_int a) (exact_of_int b)); intros [= <-] _ || discriminate;
    reflexivity.
Qed.

Lemma classify_spec s g a :
  classify s g a = (spec_level s g a, spec_tips (spec_level s g a)).
Proof.
  unfold classify, spec_level.
  destruct (fge s (exact_of_int 70) || (g >? 800) || (a >? 150)); [reflexivity|].
  destruct (fge s (exact_of_int 45) || (g >? 600) || (a >? 100)); reflexivity.
Qed.

Lemma spec_level_clamp s g a :
  not_nan s -> spec_level (clamp s) g a = spec_level s g a.
Proof.
  intros Hs. pose proof (classify_clamp s g a Hs) as H.
  rewrite !classify_spec in H. exact (f_equal fst H).
Qed.

(** What [assess_risk] returns once the weighted sum is known. *)
Lemma assess_risk_of_sum p s :
  weighted_score p = Ok s ->
  assess_risk p =
    Ok {| score := round1 (clamp s);
          level := fst (classify (clamp s) (gas_ppm p) (aqi p));
          tips := snd (classify (clamp s) (gas_ppm p) (aqi p)) |}.
Proof.
  intros Hs. unfold assess_risk. rewrite Hs. cbn [bind].
  destruct (classify (clamp s) (gas_ppm p) (aqi p)) as [lvl tps]. cbn [fst snd].
  unfold InsightResponse_new. fold (in_range (round1 (clamp s))).
  rewrite round1_clamp_in_range. reflexivity.
Qed.

Lemma assess_risk_raises p e : weighted_score p = Raise e -> assess_risk p = Raise e.
Proof. intros Hs. unfold assess_risk. rewrite Hs. reflexivity. Qed.

Lemma in_range_bounds s :
  in_range s = true -> fle f0 s = true /\ fle s f100 = true.
Proof.
  unfold in_range. intros H. apply andb_true_iff in H as [H1 H2].
  rewrite fle_f100_r. split; assumption.
Qed.

Lemma assess_risk_returns p :
  Z.abs (gas_ppm p) < 2 ^ 1023 -> Z.abs (aqi p) < 2 ^ 1023 ->
  exists s, weighted_score p = Ok s.
Proof.
  intros Hg Ha.
  destruct (int_truediv_in_range (gas_ppm p) 12 ltac:(lia) Hg) as [qg Hqg].
  destruct (int_truediv_in_range (aqi p) 3 ltac:(lia) Ha) as [qa Hqa].
  destruct p as [t g a]. cbn [gas_ppm aqi] in *.
  eexists. apply (weighted_score_eq t g a qg qa Hqg Hqa).
Qed.

Lemma assess_risk_Ok p r :
  assess_risk p = Ok r -> exists s, weighted_score p = Ok s.
Proof.
  unfold assess_risk. destruct (weighted_score p) as [s|e]; [eauto|discriminate].
Qed.

(** C1.  With [gas_ppm >= 0] and [aqi >= 0], the score that [assess_risk]
    returns is the sum [max(0, temperature_c - 25) * 1.2 + gas_ppm / 12 +
    aqi / 3] clamped to the interval [0, 100] and rounded to one decimal
    place, and it lies in [0, 100]; and [assess_risk] does return for all
    such inputs below 2^1023. *)
Theorem assess_score_formula (t : float) (g a : Z) :
  0 <= g -> 0 <= a ->
  (forall r,
      assess_risk {| temperature_c := t; gas_ppm := g; aqi := a |} = Ok r ->
      exists qg qa,
        int_truediv g 12 = Ok qg /\ int_truediv a 3 = Ok qa /\
        score r = round1 (clamp_interval (spec_weighted t qg qa)) /\
        fle f0 (score r) = true /\ fle (score r) f100 = true) /\
  (g < 2 ^ 1023 -> a < 2 ^ 1023 ->
   exists r, assess_risk {| temperature_c := t; gas_ppm := g; aqi := a |} = Ok r).
Proof.
  intros Hg0 Ha0. split.
  - intros r Hr. destruct (assess_risk_Ok _ _ Hr) as [s Hs].
    destruct (weighted_score_inv _ _ Hs) as (qg & qa & Hg & Ha).
    cbn [gas_ppm aqi] in Hg, Ha. exists qg, qa. split; [exact Hg|]. split; [exact Ha|].
    pose proof (weighted_score_eq t g a qg qa Hg Ha) as Hs'.
    fold (spec_weighted t qg qa) in Hs'.
    pose proof (weighted_score_not_nan _ _ Hs') as Hn.
    rewrite (assess_risk_of_sum _ _ Hs') in Hr. injection Hr as <-. cbn [score].
    split; [rewrite clamp_eq_interval by assumption; reflexivity|].
    apply in_range_bounds, round1_clamp_in_range.
  - intros Hg Ha.
    destruct (assess_risk_returns {| temperature_c := t; gas_ppm := g; aqi := a |})
      as [s Hs]; cbn [gas_ppm aqi]; try lia.
    eexists. apply assess_risk_of_sum, Hs.
Qed.

Lemma assess_score_formula_witness :
  (forall r,
      assess_risk {| temperature_c := float_of_int 26; gas_ppm := 100; aqi := 20 |} = Ok r ->
      exists qg qa,
        int_truediv 100 12 = Ok qg /\ int_truediv 20 3 = Ok qa /\
        score r = round1 (clamp_interval (spec_weighted (float_of_int 26) qg qa)) /\
        fle f0 (score r) = true /\ fle (score r) f100 = true) /\
  (100 < 2 ^ 1023 -> 20 < 2 ^ 1023 ->
   exists r,
     assess_risk {| temperature_c := float_of_int 26; gas_ppm := 100; aqi := 20 |} = Ok r).
Proof.
  apply (assess_score_formula (float_of_int 26) 100 20); lia.
Defined.

(** C2.  The level that [assess_risk] returns is the first match of the
    chain High risk (score >= 70 or gas_ppm > 800 or aqi > 150), Elevated
    (score >= 45 or gas_ppm > 600 or aqi > 100), Normal, the score being the
    weighted sum [s] before rounding, clamped or not; the tips are the fixed
    list of that level; and [assess_risk] does return for all inputs below
    2^1023 in absolute value. *)
Theorem assess_level_chain (p : InsightRequest) :
  (forall r,
      assess_risk p = Ok r ->
      exists s,
        weighted_score p = Ok s /\
        level r = spec_level s (gas_ppm p) (aqi p) /\
        level r = spec_level (clamp s) (gas_ppm p) (aqi p) /\
        tips r = spec_tips (level r)) /\
  (Z.abs (gas_ppm p) < 2 ^ 1023 -> Z.abs (aqi p) < 2 ^ 1023 ->
   exists r, assess_risk p = Ok r).
Proof.
  split.
  - intros r Hr. destruct (assess_risk_Ok _ _ Hr) as [s Hs]. exists s.
    split; [exact Hs|].
    rewrite (assess_risk_of_sum _ _ Hs) in Hr. injection Hr as <-. cbn [level tips].
    rewrite classify_spec. cbn [fst snd].
    rewrite spec_level_clamp by (eapply weighted_score_not_nan; eassumption).
    auto.
  - intros Hg Ha. destruct (assess_risk_returns p Hg Ha) as [s Hs].
    eexists. apply assess_risk_of_sum, Hs.
Qed.

Lemma assess_level_chain_witness :
  exists r,
    assess_risk {| temperature_c := float_of_int 20; gas_ppm := 700; aqi := 30 |} = Ok r /\
    level r = "Elevated"%string /\
    tips r = spec_tips "Elevated".
Proof.
  destruct (assess_level_chain
              {| temperature_c := float_of_int 20; gas_ppm := 700; aqi := 30 |})
    as [Hchain Hret].
  destruct Hret as [r Hr]; [vm_compute; reflexivity | vm_compute; reflexivity |].
  exists r. destruct (Hchain r Hr) as (s & Hs & Hl & _ & Ht).
  split; [exact Hr|].
  assert (s = S754_finite false 4808530852140374 (-46)) as ->.
  { assert (Ok s = Ok (S754_finite false 4808530852140374 (-46))) as E
      by (rewrite <- Hs; vm_compute; reflexivity).
    injection E as ->. reflexivity. }
  assert (level r = "Elevated"%string) as Hlvl by (rewrite Hl; vm_compute; reflexivity).
  split; [exact Hlvl|]. rewrite Ht, Hlvl. reflexivity.
Defined.

(** C5.  The thresholds 70 and 45 select the same level and tips on the
    clamped score as on the weighted sum before clamping. *)
Theorem clamp_keeps_level (p : InsightRequest) (s : float) :
  0 <= gas_ppm p -> 0 <= aqi p ->
  weighted_score p = Ok s ->
  classify (clamp s) (gas_ppm p) (aqi p) = classify s (gas_ppm p) (aqi p).
Proof.
  intros _ _ Hs. apply classify_clamp. eapply weighted_score_not_nan, Hs.
Qed.

Lemma clamp_keeps_level_witness :
  classify (clamp (S754_finite false 5864062014805333 (-45))) 0 500
  = classify (S754_finite false 5864062014805333 (-45)) 0 500.
Proof.
  apply (clamp_keeps_level
           {| temperature_c := float_of_int 25; gas_ppm := 0; aqi := 500 |});
    [cbn; lia | cbn; lia | vm_compute; reflexivity].
Defined.

(** C7.  The three sample assessments: (25, 0, 0) gives the score 0.0, the
    level Normal and two tips; (25, 0, 500) gives the score 100.0 and the
    level High risk; (50, 0, 0) gives the score 30.0 and the level Normal. *)
Theorem assess_examples :
  (exists r,
     assess_risk {| temperature_c := float_of_int 25; gas_ppm := 0; aqi := 0 |} = Ok r /\
     score r = float_of_int 0 /\ level r = "Normal"%string /\
     length (tips r) = 2%nat)
  /\
  (exists r,
     assess_risk {| temperature_c := float_of_int 25; gas_ppm := 0; aqi := 500 |} = Ok r /\
     score r = float_of_int 100 /\ level r = "High risk"%string)
  /\
  (exists r,
     assess_risk {| temperature_c := float_of_int 50; gas_ppm := 0; aqi := 0 |} = Ok r /\
     score r = float_of_int 30 /\ level r = "Normal"%string).
Proof.
  repeat split; eexists; (split; [vm_compute; reflexivity|]);
    repeat split; vm_compute; reflexivity.
Qed.

(** C10, as the code has it.  [assess_risk] returns for every request whose
    [gas_ppm] and [aqi] are below 2^1023 in absolute value, negative ones
    included, and the score lies in [0, 100]; in general it returns exactly
    when both quotients are floats, and raises [OverflowError] when one is
    too large for a float. *)
Theorem assess_returns_in_range (p : InsightRequest) :
  (Z.abs (gas_ppm p) < 2 ^ 1023 -> Z.abs (aqi p) < 2 ^ 1023 ->
   exists r, assess_risk p = Ok r /\
             fle f0 (score r) = true /\ fle (score r) f100 = true) /\
  match int_truediv (gas_ppm p) 12, int_truediv (aqi p) 3 with
  | Ok _, Ok _ =>
      exists r, assess_risk p = Ok r /\
                fle f0 (score r) = true /\ fle (score r) f100 = true
  | _, _ => assess_risk p = Raise OverflowError
  end.
Proof.
  split.
  - intros Hg Ha. destruct (assess_risk_returns p Hg Ha) as [s Hs].
    eexists. split; [apply assess_risk_of_sum, Hs|]. cbn [score].
    apply in_range_bounds, round1_clamp_in_range.
  - destruct (int_truediv (gas_ppm p) 12) as [qg|e] eqn:Hg.
    + destruct (int_truediv (aqi p) 3) as [qa|e] eqn:Ha.
      * destruct p as [t g a]. cbn [gas_ppm aqi] in *.
        pose proof (weighted_score_eq t g a qg qa Hg Ha) as Hs.
        eexists. split; [apply assess_risk_of_sum, Hs|]. cbn [score].
        apply in_range_bounds, round1_clamp_in_range.
      * apply assess_risk_raises. unfold weighted_score. rewrite Hg, Ha. cbn [bind].
        f_equal. apply (int_truediv_raises _ _ _ Ha). lia.
    + apply assess_risk_raises. unfold weighted_score. rewrite Hg. cbn [bind].
      f_equal. apply (int_truediv_raises _ _ _ Hg). lia.
Qed.

Lemma assess_returns_in_range_witness :
  exists r,
    assess_risk {| temperature_c := float_of_int (-40); gas_ppm := -7; aqi := -2 ^ 64 |} = Ok r /\
    fle f0 (score r) = true /\ fle (score r) f100 = true.
Proof.
  apply (proj1 (assess_returns_in_range
                  {| temperature_c := float_of_int (-40); gas_ppm := -7; aqi := -2 ^ 64 |}));
    vm_compute; reflexivity.
Defined.

(** C10 fails as stated: a request the interface accepts on which
    [assess_risk] raises. *)
Lemma assess_raises_on_large_int :
  assess_risk {| temperature_c := float_of_int 25; gas_ppm := 0; aqi := 3 * 2 ^ 1024 |}
  = Raise OverflowError.
Proof. vm_compute. reflexivity. Qed.

(** * Ingestion and retrieval *)

(** ** The monad *)

Lemma bind_Ok {A B : Type} (r : result A) (k : A -> result B) (b : B) :
  bind r k = Ok b -> exists a, r = Ok a /\ k a = Ok b.
Proof. destruct r as [a|e]; [eauto|discriminate]. Qed.

Lemma except_http500_Ok {A : Type} (r : result A) (a : A) :
  except_http500 r = Ok a -> r = Ok a.
Proof. destruct r; [trivial|discriminate]. Qed.

Lemma except_http500_Raise {A : Type} (r : result A) (e : exn) :
  r = Raise e -> except_http500 r = Raise (HTTPException 500).
Proof. intros ->. reflexivity. Qed.

Lemma map_result_Forall2 {A B : Type} (f : A -> result B) (l : list A) (r : list B) :
  map_result f l = Ok r -> Forall2 (fun x y => f x = Ok y) l r.
Proof.
  revert r. induction l as [|x l IH]; intros r Hr; cbn [map_result] in Hr.
  - injection Hr as <-. constructor.
  - apply bind_Ok in Hr as (y & Hy & Hr). apply bind_Ok in Hr as (ys & Hys & Hr).
    injection Hr as <-. constructor; auto.
Qed.

Lemma map_result_Raise {A B : Type} (f : A -> result B) (l : list A) (x : A) (e : exn) :
  x ∈ l -> f x = Raise e -> exists e', map_result f l = Raise e'.
Proof.
  intros Hx Hf. induction l as [|y l IH]; [inversion Hx|]. cbn [map_result].
  destruct (f y) as [b|e1] eqn:Hy; [|eauto]. cbn [bind].
  apply elem_of_cons in Hx as [->|Hx]; [congruence|].
  destruct (IH Hx) as [e' ->]. eauto.
Qed.

(** ** The sort *)




Lemma insert_desc_perm {A : Type} (kx : value * A) l r :
  insert_desc kx l = Ok r -> r ≡ₚ kx :: l.
Proof.
  revert r. induction l as [|ky l IH]; intros r Hr; cbn [insert_desc] in Hr.
  - injection Hr as <-. reflexivity.
  - apply bind_Ok in Hr as (below & _ & Hr). destruct below.
    + apply bind_Ok in Hr as (r' & Hr' & Hr). injection Hr as <-.
      rewrite (IH _ Hr'). apply Permutation_swap.
    + injection Hr as <-. reflexivity.
Qed.

Lemma sort_desc_perm {A : Type} (l s : list (value * A)) :
  sort_desc l = Ok s -> s ≡ₚ l.
Proof.
  revert s. induction l as [|kx l IH]; intros s Hs; cbn [sort_desc] in Hs.
  - injection Hs as <-. reflexivity.
  - apply bind_Ok in Hs as (s' & Hs' & Hs).
    rewrite (insert_desc_perm _ _ _ Hs). constructor. apply IH, Hs'.
Qed.







(** ** Validation *)

Section ValidationFacts.
Context {lib : PyLib}.

Lemma required_Ok {A : Type} (conv : value -> option A) (d : doc) k x :
  required conv d k = Ok x <-> d !! k ≫= conv = Some x.
Proof.
  unfold required. destruct (d !! k) as [v|]; cbn; [|split; discriminate].
  destruct (conv v); split; congruence.
Qed.

Lemma required_Raise {A : Type} (conv : value -> option A) (d : doc) k e :
  required conv d k = Raise e -> e = ValidationError.
Proof.
  unfold required. destruct (d !! k) as [v|]; [destruct (conv v)|]; congruence.
Qed.

Lemma optional_Raise {A : Type} (conv : value -> option A) (d : doc) k e :
  optional conv d k = Raise e -> e = ValidationError.
Proof.
  unfold optional. destruct (d !! k) as [v|]; [|discriminate].
  destruct v; try discriminate; destruct (conv _); congruence.
Qed.

Lemma with_default_Raise {A : Type} (a : A) (conv : value -> option A) (d : doc) k e :
  with_default a conv d k = Raise e -> e = ValidationError.
Proof.
  unfold with_default. destruct (d !! k) as [v|]; [destruct (conv v)|]; congruence.
Qed.

Lemma ge_Ok bound z z' : ge bound z = Ok z' <-> z' = z /\ bound <= z.
Proof. unfold ge. destruct (Z.leb_spec bound z); split; intros; try lia; intuition congruence. Qed.

Lemma ge_Raise bound z e : ge bound z = Raise e -> e = ValidationError.
Proof. unfold ge. destruct (bound <=? z); congruence. Qed.

(** Every rejection of a [SensorEvent] is a [ValidationError]. *)
Lemma SensorEvent_new_Raise d e : SensorEvent_new d = Raise e -> e = ValidationError.
Proof.
  unfold SensorEvent_new.
  repeat match goal with
         | |- bind ?r _ = Raise _ -> _ =>
             let E := fresh "E" in
             destruct r eqn:E; cbn [bind];
             [| intros [= <-];
                first [ eapply required_Raise; eassumption
                      | eapply ge_Raise; eassumption
                      | eapply optional_Raise; eassumption
                      | eapply with_default_Raise; eassumption ] ]
         end.
  discriminate.
Qed.

(** The fields of an accepted [SensorEvent]. *)
Lemma SensorEvent_new_Ok d ev :
  SensorEvent_new d = Ok ev ->
  d !! "timestamp" ≫= to_datetime = Some (SensorEvent.timestamp ev) /\
  d !! "gas_ppm" ≫= to_int = Some (SensorEvent.gas_ppm ev) /\
  0 <= SensorEvent.gas_ppm ev /\
  d !! "aqi" ≫= to_int = Some (SensorEvent.aqi ev) /\
  0 <= SensorEvent.aqi ev.
Proof.
  unfold SensorEvent_new. intros Hev.
  apply bind_Ok in Hev as (ts & Hts & Hev).
  apply bind_Ok in Hev as (temp & _ & Hev).
  apply bind_Ok in Hev as (g0 & Hg0 & Hev).
  apply bind_Ok in Hev as (g & Hg & Hev).
  apply bind_Ok in Hev as (a0 & Ha0 & Hev).
  apply bind_Ok in Hev as (a & Ha & Hev).
  apply bind_Ok in Hev as (loc & _ & Hev).
  apply bind_Ok in Hev as (nts & _ & Hev).
  apply bind_Ok in Hev as (src & _ & Hev).
  injection Hev as <-. cbn.
  apply required_Ok in Hts, Hg0, Ha0.
  apply ge_Ok in Hg as [-> ?], Ha as [-> ?]. auto.
Qed.

Lemma InsightRequest_new_Ok d t g a :
  d !! "temperature_c" ≫= to_float = Some t ->
  d !! "gas_ppm" ≫= to_int = Some g ->
  d !! "aqi" ≫= to_int = Some a ->
  InsightRequest_new d = Ok {| temperature_c := t; gas_ppm := g; aqi := a |}.
Proof.
  intros Ht Hg Ha. apply required_Ok in Ht, Hg, Ha.
  unfold InsightRequest_new. rewrite Ht, Hg, Ha. reflexivity.
Qed.

End ValidationFacts.

Lemma SensorEvent_dump_no_id ev : SensorEvent_dump ev !! "_id" = None.
Proof.
  unfold SensorEvent_dump.
  repeat (rewrite lookup_insert_ne by discriminate). apply lookup_empty.
Qed.

(** ** The retrieval *)

Section RetrievalFacts.
Context {lib : PyLib} {db : DocumentStore}.

Lemma keyed_snd clock docs : (keyed clock docs).*2 = docs.
Proof.
  unfold keyed. revert clock. induction docs as [|d docs IH]; intros clock; [reflexivity|].
  rewrite imap_cons. cbn [fmap list_fmap snd]. f_equal. apply (IH (clock ∘ S)).
Qed.

Lemma normalize_no_id d : normalize d !! "_id" = None.
Proof.
  unfold normalize.
  destruct (dict_get (delete "_id" d) "timestamp");
    try apply lookup_delete_eq.
  destruct (fromisoformat s); [|apply lookup_delete_eq].
  rewrite lookup_insert_ne by discriminate. apply lookup_delete_eq.
Qed.

Lemma normalize_unparsed d s :
  d !! "timestamp" = Some (VStr s) -> fromisoformat s = None ->
  normalize d = delete "_id" d.
Proof.
  intros Hd Hs. unfold normalize, dict_get.
  rewrite lookup_delete_ne by discriminate. rewrite Hd. cbn. rewrite Hs. reflexivity.
Qed.


(** The steps of a retrieval that returns. *)
Lemma get_recent_readings_Ok limit clock st items :
  get_recent_readings limit clock st = Ok items ->
  exists docs ordered,
    get_documents "sensorevent" (default 20 limit) st = Ok docs /\
    sort_desc (keyed clock docs) = Ok ordered /\
    map_result (fun kd => SensorEvent_new (normalize (snd kd))) ordered = Ok items.
Proof.
  unfold get_recent_readings. intros Hr. apply except_http500_Ok in Hr.
  apply bind_Ok in Hr as (docs & Hdocs & Hr).
  apply bind_Ok in Hr as (ordered & Hord & Hr). eauto.
Qed.

(** A fetched document that the constructor rejects fails the request. *)
Lemma get_recent_readings_rejected limit clock st docs d e :
  get_documents "sensorevent" (default 20 limit) st = Ok docs ->
  d ∈ docs ->
  SensorEvent_new (normalize d) = Raise e ->
  get_recent_readings limit clock st = Raise (HTTPException 500).
Proof.
  intros Hdocs Hd He. unfold get_recent_readings. rewrite Hdocs. cbn [bind].
  destruct (sort_desc (keyed clock docs)) as [ordered|e1] eqn:Hord; [|reflexivity].
  cbn [bind].
  assert (exists k, (k, d) ∈ ordered) as [k Hk].
  { rewrite <- (keyed_snd clock docs) in Hd.
    apply list_elem_of_fmap in Hd as ([k d'] & -> & Hd).
    exists k. rewrite (sort_desc_perm _ _ Hord). exact Hd. }
  destruct (map_result_Raise (fun kd => SensorEvent_new (normalize (snd kd)))
              ordered (k, d) e Hk He) as [e' ->].
  reflexivity.
Qed.

End RetrievalFacts.

(** * The claims on ingestion and retrieval *)

(** C3, as the code has it.  On ingest a reading whose [gas_ppm] or [aqi] is
    negative is rejected with a [ValidationError] and the store is left as it
    was; the request of an assessment has no such bound, and a body whose
    three fields convert is assessed whatever their signs. *)
Theorem negative_reading_rejected_on_ingest {lib : PyLib} {db : DocumentStore} :
  (forall (body : doc) (st : store) (z : Z),
      z < 0 ->
      body !! "gas_ppm" ≫= to_int = Some z \/ body !! "aqi" ≫= to_int = Some z ->
      post_ingest body st = (Raise ValidationError, st)) /\
  (forall (body : doc) (t : float) (g a : Z),
      body !! "temperature_c" ≫= to_float = Some t ->
      body !! "gas_ppm" ≫= to_int = Some g ->
      body !! "aqi" ≫= to_int = Some a ->
      post_assess body = assess_risk {| temperature_c := t; gas_ppm := g; aqi := a |}).
Proof.
  split.
  - intros body st z Hz Hneg. unfold post_ingest.
    destruct (SensorEvent_new body) as [ev|e] eqn:Hev.
    + apply SensorEvent_new_Ok in Hev as (_ & Hg & Hg0 & Ha & Ha0).
      destruct Hneg as [Hn|Hn]; rewrite Hn in *; [injection Hg as ->|injection Ha as ->]; lia.
    + apply SensorEvent_new_Raise in Hev as ->. reflexivity.
  - intros body t g a Ht Hg Ha. unfold post_assess.
    rewrite (InsightRequest_new_Ok body t g a) by assumption. reflexivity.
Qed.

Lemma negative_reading_rejected_on_ingest_witness :
  post_ingest (lib := Demo.lib) (db := Demo.memory)
    (Demo.reading (VStr "2024-02-01T00:00:00") 22 (-1) 2) Demo.fetched
  = (Raise ValidationError, Demo.fetched).
Proof.
  apply (proj1 (negative_reading_rejected_on_ingest (lib := Demo.lib) (db := Demo.memory))
           _ _ (-1));
    [lia | left; vm_compute; reflexivity].
Defined.

(** C3 fails as stated: the assessment of a request with a negative
    [gas_ppm] is not rejected. *)
Lemma assess_accepts_negative_gas :
  post_assess (lib := Demo.lib) Demo.negative_request
  = Ok {| score := float_of_int 0; level := "Normal"; tips := tips_normal |}.
Proof. vm_compute. reflexivity. Qed.

(** C4, as the code has it.  A timestamp string that [fromisoformat] rejects
    stays in the document as it is and reaches the constructor of
    [SensorEvent]: the item, if the constructor accepts the string, carries
    the datetime the constructor reads in it; if the constructor rejects it,
    every retrieval that fetches the record fails with status 500. *)
Theorem unparsed_timestamp_reaches_constructor {lib : PyLib} {db : DocumentStore}
    (d : doc) (s : string) :
  d !! "timestamp" = Some (VStr s) ->
  fromisoformat s = None ->
  normalize d !! "timestamp" = Some (VStr s) /\
  (forall ev, SensorEvent_new (normalize d) = Ok ev ->
              to_datetime (VStr s) = Some (SensorEvent.timestamp ev)) /\
  (to_datetime (VStr s) = None ->
   forall limit clock st docs,
     get_documents "sensorevent" (default 20 limit) st = Ok docs ->
     d ∈ docs ->
     get_recent_readings limit clock st = Raise (HTTPException 500)).
Proof.
  intros Hd Hs.
  assert (normalize d !! "timestamp" = Some (VStr s)) as Hn.
  { rewrite (normalize_unparsed d s Hd Hs).
    rewrite lookup_delete_ne by discriminate. exact Hd. }
  split; [exact Hn|]. split.
  - intros ev Hev. apply SensorEvent_new_Ok in Hev as (Hts & _).
    rewrite Hn in Hts. exact Hts.
  - intros Hrej limit clock st docs Hdocs Hin.
    apply (get_recent_readings_rejected limit clock st docs d ValidationError Hdocs Hin).
    unfold SensorEvent_new, required. rewrite Hn, Hrej. reflexivity.
Qed.

Lemma unparsed_timestamp_reaches_constructor_witness :
  normalize (lib := Demo.lib) Demo.zulu !! "timestamp"
  = Some (VStr "2024-05-01T12:00:00Z") /\
  (forall ev, SensorEvent_new (lib := Demo.lib) (normalize (lib := Demo.lib) Demo.zulu) = Ok ev ->
              to_datetime (PyLib := Demo.lib) (VStr "2024-05-01T12:00:00Z")
              = Some (SensorEvent.timestamp ev)) /\
  (to_datetime (PyLib := Demo.lib) (VStr "2024-05-01T12:00:00Z") = None ->
   forall limit clock st docs,
     get_documents (DocumentStore := Demo.memory) "sensorevent" (default 20 limit) st = Ok docs ->
     Demo.zulu ∈ docs ->
     get_recent_readings (lib := Demo.lib) (db := Demo.memory) limit clock st
     = Raise (HTTPException 500)).
Proof.
  apply (unparsed_timestamp_reaches_constructor (lib := Demo.lib) (db := Demo.memory)
           Demo.zulu "2024-05-01T12:00:00Z");
    vm_compute; reflexivity.
Defined.

(** C4 fails as stated: one record whose timestamp is no date fails the
    retrieval of the three well-formed records fetched with it. *)
Lemma malformed_record_fails_retrieval :
  get_recent_readings (lib := Demo.lib) (db := Demo.memory)
    None Demo.clock (Demo.fetched ++ [Demo.malformed])
  = Raise (HTTPException 500) /\
  exists items,
    get_recent_readings (lib := Demo.lib) (db := Demo.memory)
      None Demo.clock Demo.fetched = Ok items /\
                length items = 3%nat.
Proof.
  split; [vm_compute; reflexivity|].
  eexists. split; vm_compute; reflexivity.
Qed.

(** C6 fails on the code.  The sort compares the stored values themselves,
    so timestamps held as strings are ordered as text.  Of two readings
    without a creation timestamp, fetched in this order, one taken at 05:00
    at the offset +00:00 and one taken at 10:00 at the offset +09:00 of the
    same day, the keys are the two strings, and the retrieval returns the
    second reading first although it is the older one, by four hours. *)
Theorem recent_older_reading_first :
  keyed Demo.clock Offsets.stored
  = [ (VStr "2024-01-01T05:00:00+00:00", Offsets.utc);
      (VStr "2024-01-01T10:00:00+09:00", Offsets.tokyo) ] /\
  exists first second,
    get_recent_readings (lib := Offsets.lib) (db := Demo.memory)
      None Demo.clock Offsets.stored = Ok [first; second] /\
    SensorEvent_new (lib := Offsets.lib) (normalize (lib := Offsets.lib) Offsets.tokyo)
    = Ok first /\
    SensorEvent_new (lib := Offsets.lib) (normalize (lib := Offsets.lib) Offsets.utc)
    = Ok second /\
    SensorEvent.timestamp first = {| instant := 1704070800000000; tz_aware := true |} /\
    SensorEvent.timestamp second = {| instant := 1704085200000000; tz_aware := true |} /\
    instant (SensorEvent.timestamp first) < instant (SensorEvent.timestamp second).
Proof.
  split; [vm_compute; reflexivity|].
  eexists _, _. split; [vm_compute; reflexivity|].
  repeat split; vm_compute; reflexivity.
Qed.

(** C8.  Every item returned is built from a fetched document from which
    the identifier [_id] has been removed, and has no field [_id]. *)
Theorem recent_items_without_identifier {lib : PyLib} {db : DocumentStore}
    (limit : option Z) (clock : nat -> Z) (st : store) (items : list SensorEvent.t) :
  get_recent_readings limit clock st = Ok items ->
  exists docs,
    get_documents "sensorevent" (default 20 limit) st = Ok docs /\
    length items = length docs /\
    Forall (fun ev =>
              SensorEvent_dump ev !! "_id" = None /\
              exists d, d ∈ docs /\ normalize d !! "_id" = None /\
                        SensorEvent_new (normalize d) = Ok ev) items.
Proof.
  intros Hr.
  apply get_recent_readings_Ok in Hr as (docs & ordered & Hdocs & Hord & Hitems).
  exists docs. split; [exact Hdocs|].
  apply map_result_Forall2 in Hitems. apply sort_desc_perm in Hord.
  split.
  - rewrite <- (Forall2_length _ _ _ Hitems), Hord.
    unfold keyed. apply length_imap.
  - apply Forall_forall. intros ev Hev.
    split; [apply SensorEvent_dump_no_id|].
    apply list_elem_of_lookup in Hev as [i Hi].
    destruct (Forall2_lookup_r _ _ _ _ _ Hitems Hi) as ([k d] & Hkd & Hnew).
    exists d. split; [|split; [apply normalize_no_id|exact Hnew]].
    rewrite <- (keyed_snd clock docs). apply list_elem_of_fmap.
    exists (k, d). split; [reflexivity|].
    rewrite <- Hord. eapply list_elem_of_lookup_2, Hkd.
Qed.

Lemma recent_items_without_identifier_witness :
  exists docs,
    get_documents (DocumentStore := Demo.memory) "sensorevent" 20 Demo.fetched = Ok docs /\
    length Demo.recent_items = length docs /\
    Forall (fun ev =>
              SensorEvent_dump ev !! "_id" = None /\
              exists d, d ∈ docs /\ normalize (lib := Demo.lib) d !! "_id" = None /\
                        SensorEvent_new (lib := Demo.lib) (normalize (lib := Demo.lib) d) = Ok ev)
           Demo.recent_items.
Proof.
  apply (recent_items_without_identifier (lib := Demo.lib) (db := Demo.memory)
           None Demo.clock Demo.fetched Demo.recent_items).
  vm_compute. reflexivity.
Defined.

(** * Further properties of the risk scorer *)

(** ** The score is a number of tenths *)

(** [round(x, 1)] of a positive finite float, through [tenths]. *)
Lemma round1_tenth m e : round1 (S754_finite false m e) = tenth (tenths m e).
Proof. unfold round1, tenth. destruct (tenths m e); reflexivity. Qed.

Lemma clamp_round1_tenth s :
  exists n, 0 <= n <= 1000 /\ round1 (clamp s) = tenth n.
Proof.
  destruct (clamp_cases s) as [E|[E|(E & H0 & H100)]]; rewrite E.
  - exists 0. split; [lia|reflexivity].
  - exists 1000. split; [lia|vm_compute; reflexivity].
  - apply flt_f0_positive in H0 as [->|(m & e & ->)]; [discriminate|].
    pose proof (tenths_bounds m e H100) as Hb.
    exists (tenths m e). split; [exact Hb|apply round1_tenth].
Qed.

(** ** The level and the rounded score *)

Lemma tenths_le m e c :
  flt (S754_finite false m e) (exact_of_int c) = true -> tenths m e <= 10 * c.
Proof.
  unfold flt. rewrite fcompare_int_r by exact I.
  unfold num, den. cbn [signed_mantissa exponent cond_Zopp].
  destruct (Z.compare_spec (Z.pos m * 2 ^ (e - Z.min e 0)) (c * 2 ^ (- Z.min e 0)))
    as [| Hlt |]; try discriminate. intros _.
  unfold tenths. destruct (Z.leb_spec 0 e) as [He|He].
  - rewrite Z.min_r in Hlt by lia. rewrite Z.sub_0_r in Hlt. cbn [Z.opp Z.pow] in Hlt.
    assert (0 < 2 ^ e) by (apply Z.pow_pos_nonneg; lia). nia.
  - rewrite Z.min_l in Hlt by lia. rewrite Z.sub_diag, Z.mul_1_r in Hlt.
    assert (0 < 2 ^ (- e)) by (apply Z.pow_pos_nonneg; lia).
    apply (round_half_even_bounds (10 * Z.pos m) (2 ^ (- e)) (10 * c)); [assumption|nia].
Qed.

Lemma tenths_ge m e c :
  fle (exact_of_int c) (S754_finite false m e) = true -> 10 * c <= tenths m e.
Proof.
  unfold fle. rewrite fcompare_int_l by exact I.
  unfold num, den. cbn [signed_mantissa exponent cond_Zopp].
  destruct (Z.compare_spec (c * 2 ^ (- Z.min e 0)) (Z.pos m * 2 ^ (e - Z.min e 0)))
    as [Heq | Hlt |]; try discriminate; intros _;
    (assert (c * 2 ^ (- Z.min e 0) <= Z.pos m * 2 ^ (e - Z.min e 0)) as Hle by lia);
    clear Heq || clear Hlt;
    unfold tenths; (destruct (Z.leb_spec 0 e) as [He|He];
    [ rewrite Z.min_r in Hle by lia; rewrite Z.sub_0_r in Hle; cbn [Z.opp Z.pow] in Hle;
      assert (0 < 2 ^ e) by (apply Z.pow_pos_nonneg; lia); nia
    | rewrite Z.min_l in Hle by lia; rewrite Z.sub_diag, Z.mul_1_r in Hle;
      assert (0 < 2 ^ (- e)) as Hd by (apply Z.pow_pos_nonneg; lia);
      unfold round_half_even;
      assert (10 * c <= 10 * Z.pos m / 2 ^ (- e))
        by (apply Z.div_le_lower_bound; [assumption|nia]);
      destruct (2 * ((10 * Z.pos m) mod 2 ^ (- e)) ?= 2 ^ (- e));
      [destruct (Z.even (10 * Z.pos m / 2 ^ (- e)))| |]; lia ]).
Qed.

Lemma threshold_table :
  forall_pos_upto (threshold_row 45) 1000 = true /\
  forall_pos_upto (threshold_row 70) 1000 = true.
Proof. split; vm_compute; reflexivity. Qed.

Lemma tenth_threshold c n :
  c = 45 \/ c = 70 -> 0 <= n <= 1000 ->
  (n <= 10 * c -> fle (tenth n) (exact_of_int c) = true) /\
  (10 * c <= n -> fle (exact_of_int c) (tenth n) = true).
Proof.
  intros Hc Hn. destruct n as [|p|p]; [| |lia].
  - destruct Hc as [-> | ->]; split; intros; try lia; reflexivity.
  - assert (threshold_row c p = true) as Hrow.
    { destruct threshold_table as [T45 T70].
      destruct Hc as [-> | ->];
        [apply (forall_pos_upto_spec _ _ T45)|apply (forall_pos_upto_spec _ _ T70)]; lia. }
    unfold threshold_row in Hrow. apply andb_true_iff in Hrow as [H1 H2].
    split; intros Hle.
    + destruct (Z.leb_spec (Z.pos p) (10 * c)); [assumption|lia].
    + destruct (Z.leb_spec (10 * c) (Z.pos p)); [assumption|lia].
Qed.

Lemma flt_of_not_fle c x :
  is_finite x -> fle (exact_of_int c) x = false -> flt x (exact_of_int c) = true.
Proof.
  intros Hx. unfold fle, flt. rewrite fcompare_int_l, fcompare_int_r by assumption.
  destruct (Z.compare_spec (c * den x) (num x)), (Z.compare_spec (num x) (c * den x));
    try discriminate; try reflexivity; lia.
Qed.

(** The rounded score stays on the side of 45 and of 70 on which the clamped
    score lies. *)
Lemma round1_clamp_threshold c s :
  c = 45 \/ c = 70 ->
  if fge (clamp s) (exact_of_int c)
  then fle (exact_of_int c) (round1 (clamp s)) = true
  else fle (round1 (clamp s)) (exact_of_int c) = true.
Proof.
  intros Hc.
  destruct (clamp_cases s) as [E|[E|(E & H0 & H100)]]; rewrite E.
  - destruct Hc as [-> | ->]; reflexivity.
  - destruct Hc as [-> | ->]; vm_compute; reflexivity.
  - apply flt_f0_positive in H0 as [->|(m & e & ->)]; [discriminate|].
    pose proof (tenths_bounds m e H100) as Hb.
    rewrite round1_tenth.
    destruct (tenth_threshold c (tenths m e) Hc Hb) as [Hle Hge].
    unfold fge. destruct (fle (exact_of_int c) (S754_finite false m e)) eqn:Hcmp.
    + apply Hge, tenths_ge, Hcmp.
    + apply Hle, tenths_le, flt_of_not_fle; [exact I|exact Hcmp].
Qed.

(** ** Temperatures of 25 degrees and below *)

Lemma iter_xO_value m d : Zpos (Pos.iter xO m d) = Zpos m * 2 ^ Zpos d.
Proof.
  induction d as [|d IH] using Pos.peano_ind.
  - cbn [Pos.iter]. change (2 ^ 1) with 2. lia.
  - rewrite Pos.iter_succ, Pos2Z.inj_succ, Z.pow_succ_r by lia.
    rewrite Pos2Z.pos_xO, IH. lia.
Qed.

Lemma shl_align_value m e ez :
  ez <= e -> Zpos (fst (shl_align m e ez)) = Zpos m * 2 ^ (e - ez).
Proof.
  intros He. unfold shl_align.
  destruct (ez - e) as [|d|d] eqn:Ed; cbn [fst]; try lia.
  - replace (e - ez) with 0 by lia. lia.
  - rewrite iter_xO_value. f_equal. f_equal. lia.
Qed.

Lemma has_sign_true_nonpos x : has_sign true x -> nonpos x.
Proof. destruct x as [[]|[]| |[]]; cbn; intros; try discriminate; tauto. Qed.

Lemma binary_normalize_nonpos m e : m <= 0 -> nonpos (binary_normalize prec emax m e false).
Proof.
  intros Hm. destruct m as [|p|p]; [exact I|lia|].
  cbn [binary_normalize]. unfold binary_round. destruct (shl_align _ _ _) as [mz ez].
  apply has_sign_true_nonpos, binary_round_aux_sign. lia.
Qed.

Lemma flt_f0_nonpos x : nonpos x -> flt f0 x = false.
Proof.
  intros Hx. destruct (flt f0 x) eqn:E; [|reflexivity].
  apply flt_f0_positive in E as [->|(m & e & ->)]; destruct Hx.
Qed.

(** [t - 25] is not positive when [t <= 25]. *)
Lemma fsub_25_nonpos t :
  fle t (float_of_int 25) = true -> nonpos (fsub t (float_of_int 25)).
Proof.
  change (float_of_int 25) with (S754_finite false 7036874417766400 (-48)).
  destruct t as [s|s| |s m e].
  - intros _. exact I.
  - destruct s; [intros _; exact I|discriminate].
  - discriminate.
  - unfold fle. set (ez := Z.min e (-48)).
    rewrite (fcompare_finite_at ez) by (cbn; trivial; lia).
    unfold cmp_at. cbn [signed_mantissa exponent]. intros Hle.
    unfold fsub. cbn [SFsub]. fold ez.
    apply binary_normalize_nonpos.
    rewrite !shl_align_value by lia.
    destruct (Z.compare_spec (cond_Zopp s (Z.pos m) * 2 ^ (e - ez))
                (cond_Zopp false 7036874417766400 * 2 ^ (-48 - ez))); try discriminate;
      destruct s; cbn [cond_Zopp] in *; lia.
Qed.

Lemma temperature_term_cool t :
  fle t (float_of_int 25) = true \/ t = S754_nan ->
  pymax f0 (fsub t (float_of_int 25)) = f0.
Proof.
  intros [Ht | ->]; [|reflexivity].
  unfold pymax, fgt. rewrite flt_f0_nonpos; [reflexivity|apply fsub_25_nonpos, Ht].
Qed.

Lemma int_truediv_nonpos a b q :
  a <= 0 -> 0 < b -> int_truediv a b = Ok q -> nonpos q.
Proof.
  intros Ha Hb. unfold int_truediv. destruct (Z.eqb_spec b 0) as [->|_]; [lia|].
  destruct a as [|pa|pa], b as [|pb|pb]; try lia; cbn [exact_of_int].
  - intros [= <-]. exact I.
  - unfold fdiv. cbn [SFdiv]. unfold SFdiv_core_binary.
    match goal with
    | |- context [Z.div_eucl ?m' (Z.pos pb)] =>
        assert (0 <= m') as Hm'
          by (destruct (0 - 0 - _); try lia; apply Z.shiftl_nonneg; lia);
        pose proof (div_eucl_nonneg m' (Z.pos pb) Hm' ltac:(lia)) as Hq;
        destruct (Z.div_eucl m' (Z.pos pb)) as [q0 r0]
    end.
    cbn [fst] in Hq.
    match goal with
    | |- context [binary_round_aux ?p ?e ?s ?m ?ex ?l] =>
        pose proof (binary_round_aux_sign s m ex l Hq) as Hs;
        destruct (binary_round_aux p e s m ex l) as [[]|[]| |[]];
        cbn in Hs; try discriminate; try tauto; intros [= <-]; exact I
    end.
Qed.

Lemma fadd_nonpos x y : nonpos x -> nonpos y -> nonpos (fadd x y).
Proof.
  destruct x as [sx|[]| |[] mx ex], y as [sy|[]| |[] my ey]; cbn [nonpos];
    try tauto; intros _ _; try exact I.
  - destruct sx, sy; exact I.
  - unfold fadd. cbn [SFadd]. apply binary_normalize_nonpos. cbn [cond_Zopp]. lia.
Qed.

Lemma flt_f100_nonpos x : nonpos x -> flt x f100 = true.
Proof.
  destruct x as [s|[]| |[] m e]; cbn [nonpos]; try tauto; intros _; try reflexivity.
  rewrite flt_f100. unfold flt. rewrite fcompare_int_r by exact I.
  pose proof (den_pos (S754_finite true m e)) as Hd.
  assert (num (S754_finite true m e) < 0) as Hn.
  { unfold num. cbn [signed_mantissa exponent cond_Zopp].
    assert (0 < 2 ^ (e - Z.min e 0)) by (apply Z.pow_pos_nonneg; lia). nia. }
  destruct (Z.compare_spec (num (S754_finite true m e)) (100 * den (S754_finite true m e)));
    try reflexivity; lia.
Qed.

Lemma clamp_nonpos x : nonpos x -> clamp x = f0.
Proof.
  intros Hx. unfold clamp, pymin, pymax, fgt.
  rewrite (flt_f100_nonpos x Hx), (flt_f0_nonpos x Hx). reflexivity.
Qed.

(** ** The properties *)

(** X1.  The score of every response of [assess_risk] is the float nearest
    to [n / 10] for an integer [n] from 0 to 1000: a number with one decimal
    place between 0.0 and 100.0, as [round(score, 1)] of a clamped score
    is. *)
Theorem assess_score_is_a_tenth (p : InsightRequest) (r : InsightResponse) :
  assess_risk p = Ok r ->
  exists n, 0 <= n <= 1000 /\ score r = tenth n.
Proof.
  intros Hr. destruct (assess_risk_Ok _ _ Hr) as [s Hs].
  rewrite (assess_risk_of_sum _ _ Hs) in Hr. injection Hr as <-. cbn [score].
  apply clamp_round1_tenth.
Qed.

Lemma assess_score_is_a_tenth_witness :
  exists n, 0 <= n <= 1000 /\ score (Samples.assessed Samples.warm) = tenth n.
Proof.
  apply (assess_score_is_a_tenth Samples.warm (Samples.assessed Samples.warm)).
  vm_compute. reflexivity.
Defined.

(** X2.  The level is chosen on the score before rounding and the response
    carries the rounded score; the two never disagree about a threshold.  A
    response of level Normal has a score of at most 45 and one of level
    Elevated a score of at most 70; and when neither the gas reading nor the
    air quality index forces the level, an Elevated response has a score of
    at least 45 and a High risk response a score of at least 70. *)
Theorem level_agrees_with_rounded_score (p : InsightRequest) (r : InsightResponse) :
  assess_risk p = Ok r ->
  (level r = "Normal"%string -> fle (score r) (exact_of_int 45) = true) /\
  (level r = "Elevated"%string -> fle (score r) (exact_of_int 70) = true) /\
  (level r = "Elevated"%string -> gas_ppm p <= 600 -> aqi p <= 100 ->
   fle (exact_of_int 45) (score r) = true) /\
  (level r = "High risk"%string -> gas_ppm p <= 800 -> aqi p <= 150 ->
   fle (exact_of_int 70) (score r) = true).
Proof.
  intros Hr. destruct (assess_risk_Ok _ _ Hr) as [s Hs].
  rewrite (assess_risk_of_sum _ _ Hs) in Hr. injection Hr as <-. cbn [score level].
  pose proof (round1_clamp_threshold 45 s ltac:(auto)) as H45.
  pose proof (round1_clamp_threshold 70 s ltac:(auto)) as H70.
  unfold classify.
  destruct (fge (clamp s) (exact_of_int 70)) eqn:E70;
    destruct (fge (clamp s) (exact_of_int 45)) eqn:E45;
    destruct (Z.gtb_spec (gas_ppm p) 800), (Z.gtb_spec (aqi p) 150),
             (Z.gtb_spec (gas_ppm p) 600), (Z.gtb_spec (aqi p) 100);
    cbn [orb fst]; repeat split; intros; try discriminate; try lia; assumption.
Qed.

Lemma level_agrees_with_rounded_score_witness :
  level (Samples.assessed Samples.warm) = "Normal"%string /\
  score (Samples.assessed Samples.warm) = float_of_int 45 /\
  fle (score (Samples.assessed Samples.warm)) (exact_of_int 45) = true.
Proof.
  split; [vm_compute; reflexivity|]. split; [vm_compute; reflexivity|].
  destruct (level_agrees_with_rounded_score Samples.warm (Samples.assessed Samples.warm))
    as [Hnormal _]; [vm_compute; reflexivity|].
  apply Hnormal. vm_compute. reflexivity.
Defined.

(** X3.  A temperature of 25 degrees or less, minus infinity and NaN
    included, contributes nothing: the response is the one for 25 degrees,
    and so is the exception if the call raises. *)
Theorem cool_temperature_adds_nothing (t : float) (g a : Z) :
  fle t (float_of_int 25) = true \/ t = S754_nan ->
  assess_risk {| temperature_c := t; gas_ppm := g; aqi := a |}
  = assess_risk {| temperature_c := float_of_int 25; gas_ppm := g; aqi := a |}.
Proof.
  intros Ht. unfold assess_risk, weighted_score. cbn [temperature_c gas_ppm aqi].
  rewrite (temperature_term_cool t Ht).
  rewrite (temperature_term_cool (float_of_int 25)) by (left; reflexivity).
  reflexivity.
Qed.

Lemma cool_temperature_adds_nothing_witness :
  assess_risk {| temperature_c := float_of_int 10; gas_ppm := 100; aqi := 20 |}
  = assess_risk {| temperature_c := float_of_int 25; gas_ppm := 100; aqi := 20 |}.
Proof.
  apply (cool_temperature_adds_nothing (float_of_int 10) 100 20).
  left. vm_compute. reflexivity.
Defined.

(** X4.  With a temperature of 25 degrees or less and neither reading
    positive (the request type admits negative ones), [assess_risk] returns
    the score 0.0, the level Normal and the tips of that level: the lower
    clamp absorbs the negative sum. *)
Theorem nonpositive_readings_score_zero (t : float) (g a : Z) :
  fle t (float_of_int 25) = true \/ t = S754_nan ->
  - 2 ^ 1023 < g <= 0 -> - 2 ^ 1023 < a <= 0 ->
  assess_risk {| temperature_c := t; gas_ppm := g; aqi := a |}
  = Ok {| score := f0; level := "Normal"; tips := tips_normal |}.
Proof.
  intros Ht Hg Ha.
  destruct (int_truediv_in_range g 12 ltac:(lia) ltac:(lia)) as [qg Hqg].
  destruct (int_truediv_in_range a 3 ltac:(lia) ltac:(lia)) as [qa Hqa].
  pose proof (int_truediv_nonpos g 12 qg ltac:(lia) ltac:(lia) Hqg) as Ng.
  pose proof (int_truediv_nonpos a 3 qa ltac:(lia) ltac:(lia) Hqa) as Na.
  assert (weighted_score {| temperature_c := t; gas_ppm := g; aqi := a |}
          = Ok (fadd (fadd (fadd f0 (fmul f0 f1_2)) qg) qa)) as Hs.
  { unfold weighted_score. cbn [temperature_c gas_ppm aqi].
    rewrite (temperature_term_cool t Ht), Hqg, Hqa. reflexivity. }
  rewrite (assess_risk_of_sum _ _ Hs). cbn [gas_ppm aqi].
  rewrite clamp_nonpos by (repeat apply fadd_nonpos; try assumption; exact I).
  unfold classify.
  destruct (Z.gtb_spec g 800), (Z.gtb_spec a 150), (Z.gtb_spec g 600), (Z.gtb_spec a 100);
    try lia.
  reflexivity.
Qed.

Lemma nonpositive_readings_score_zero_witness :
  assess_risk {| temperature_c := float_of_int 10; gas_ppm := -5; aqi := 0 |}
  = Ok {| score := f0; level := "Normal"; tips := tips_normal |}.
Proof.
  apply (nonpositive_readings_score_zero (float_of_int 10) (-5) 0);
    [left; vm_compute; reflexivity | lia | lia].
Defined.

(** * Further properties of ingestion and retrieval *)

(** ** The constructor and the sort *)

Section ConstructorFacts.
Context {lib : PyLib}.

Lemma to_Location_dump l :
  (forall x, to_float (VFloat x) = Some x) -> to_Location (Location_dump l) = Some l.
Proof.
  intros Hf. destruct l as [la ln]. unfold to_Location, Location_dump, required.
  cbn [Location.lat Location.lng list_to_map foldr uncurry fst snd].
  rewrite lookup_insert_eq, Hf.
  rewrite lookup_insert_ne by discriminate. rewrite lookup_insert_eq, Hf. reflexivity.
Qed.

Lemma required_is_Some {A : Type} (conv : value -> option A) (d : doc) k x :
  required conv d k = Ok x -> is_Some (d !! k).
Proof. unfold required. destruct (d !! k); [eauto|discriminate]. Qed.

Lemma SensorEvent_new_required d ev k :
  SensorEvent_new d = Ok ev -> k ∈ required_fields -> is_Some (d !! k).
Proof.
  unfold SensorEvent_new. intros Hev Hk.
  apply bind_Ok in Hev as (ts & Hts & Hev).
  apply bind_Ok in Hev as (temp & Htemp & Hev).
  apply bind_Ok in Hev as (g0 & Hg0 & Hev).
  apply bind_Ok in Hev as (g & _ & Hev).
  apply bind_Ok in Hev as (a0 & Ha0 & _).
  apply required_is_Some in Hts, Htemp, Hg0, Ha0.
  unfold required_fields in Hk.
  repeat (apply elem_of_cons in Hk as [->|Hk]; [assumption|]).
  inversion Hk.
Qed.

End ConstructorFacts.

Lemma insert_desc_Raise {A : Type} (kx : value * A) l e :
  insert_desc kx l = Raise e -> e = TypeError.
Proof.
  induction l as [|ky l IH]; cbn [insert_desc]; [discriminate|].
  destruct (py_lt (fst kx) (fst ky)) as [[]|e1] eqn:Hlt; cbn [bind].
  - destruct (insert_desc kx l); cbn [bind]; [discriminate|].
    intros [= <-]. apply IH. reflexivity.
  - discriminate.
  - intros [= <-]. destruct (fst kx) as [|x|x|x|x|x|x], (fst ky) as [|y|y|y|y|y|y];
      cbn [py_lt] in Hlt; try congruence.
    destruct (Bool.eqb (tz_aware x) (tz_aware y)); congruence.
Qed.

Lemma sort_desc_Raise {A : Type} (l : list (value * A)) e :
  sort_desc l = Raise e -> e = TypeError.
Proof.
  induction l as [|kx l IH]; cbn [sort_desc]; [discriminate|].
  destruct (sort_desc l) as [s|e1]; cbn [bind].
  - apply insert_desc_Raise.
  - intros [= <-]. apply IH. reflexivity.
Qed.

Lemma map_result_Raise_inv {A B : Type} (f : A -> result B) (l : list A) e :
  map_result f l = Raise e -> exists x, x ∈ l /\ f x = Raise e.
Proof.
  induction l as [|x l IH]; cbn [map_result]; [discriminate|].
  destruct (f x) as [y|e1] eqn:Hx; cbn [bind].
  - destruct (map_result f l) as [ys|e2]; cbn [bind]; [discriminate|].
    intros [= <-]. destruct (IH eq_refl) as (x' & Hin & Hf).
    exists x'. split; [apply elem_of_cons; auto|exact Hf].
  - intros [= <-]. exists x. split; [apply elem_of_cons; auto|exact Hx].
Qed.

Lemma py_lt_Ok_kind a b r :
  py_lt a b = Ok r -> exists k, kind_of a = Some k /\ kind_of b = Some k.
Proof.
  destruct a as [|x|x|x|x|x|x], b as [|y|y|y|y|y|y]; cbn [py_lt kind_of];
    try discriminate; eauto.
  destruct (Bool.eqb (tz_aware x) (tz_aware y)) eqn:E; [|discriminate].
  apply Bool.eqb_prop in E. rewrite E. eauto.
Qed.

Lemma insert_desc_kind {A : Type} (kx ky : value * A) l r :
  insert_desc kx (ky :: l) = Ok r ->
  exists k, kind_of (fst kx) = Some k /\ kind_of (fst ky) = Some k.
Proof.
  cbn [insert_desc]. intros Hr. apply bind_Ok in Hr as (below & Hlt & _).
  eapply py_lt_Ok_kind, Hlt.
Qed.

(** A sort that succeeds on two or more elements has keys of one kind. *)
Lemma sort_desc_one_kind {A : Type} (l s : list (value * A)) :
  sort_desc l = Ok s -> (2 <= length l)%nat ->
  exists k, Forall (fun x => kind_of (fst x) = Some k) l.
Proof.
  revert s. induction l as [|x l IH]; intros s Hs Hlen; [cbn in Hlen; lia|].
  cbn [sort_desc] in Hs. apply bind_Ok in Hs as (s' & Hs' & Hins).
  pose proof (sort_desc_perm _ _ Hs') as Hperm.
  destruct s' as [|y s'].
  { apply Permutation_nil_l in Hperm. subst l. cbn in Hlen. lia. }
  destruct (insert_desc_kind _ _ _ _ Hins) as (k & Hx & Hy).
  exists k. constructor; [exact Hx|].
  destruct l as [|z l]; [constructor|].
  destruct l as [|z' l].
  - apply Permutation_length in Hperm as Hl. destruct s'; [|discriminate].
    apply Permutation_singleton_l in Hperm. injection Hperm as ->.
    constructor; [exact Hy|constructor].
  - destruct (IH _ Hs' ltac:(cbn; lia)) as (k' & Hall).
    assert (kind_of (fst y) = Some k') as Hy'.
    { rewrite <- Hperm in Hall. apply Forall_cons in Hall as [Hh _]. exact Hh. }
    assert (k' = k) as -> by congruence. exact Hall.
Qed.

(** ** Stability of the sort *)







(** ** The loop body *)

Section NormalizeFacts.
Context {lib : PyLib}.

Lemma keyed_elem clock docs d :
  d ∈ docs -> exists i, (key_fn (clock i) d, d) ∈ keyed clock docs.
Proof.
  intros Hd. apply list_elem_of_lookup in Hd as [i Hi]. exists i.
  apply list_elem_of_lookup. exists i. unfold keyed.
  rewrite list_lookup_imap, Hi. reflexivity.
Qed.

Lemma keyed_length clock docs : length (keyed clock docs) = length docs.
Proof. unfold keyed. apply length_imap. Qed.

Lemma normalize_other_keys d k :
  k <> "_id"%string -> k <> "timestamp"%string -> normalize d !! k = d !! k.
Proof.
  intros Hid Hts. unfold normalize.
  destruct (dict_get (delete "_id" d) "timestamp");
    try (apply lookup_delete_ne; congruence).
  destruct (fromisoformat s); [|apply lookup_delete_ne; congruence].
  rewrite lookup_insert_ne by congruence. apply lookup_delete_ne. congruence.
Qed.

Lemma normalize_fixed d :
  d !! "_id" = None ->
  (forall s, d !! "timestamp" = Some (VStr s) -> fromisoformat s = None) ->
  normalize d = d.
Proof.
  intros Hid Hts. unfold normalize, dict_get. rewrite (delete_id d "_id" Hid).
  destruct (d !! "timestamp") as [[|z|x|s|t|o|f]|] eqn:E; cbn; try reflexivity.
  rewrite (Hts s eq_refl). reflexivity.
Qed.

Lemma normalize_timestamp_settled d s :
  normalize d !! "timestamp" = Some (VStr s) -> fromisoformat s = None.
Proof.
  unfold normalize, dict_get. rewrite lookup_delete_ne by discriminate.
  destruct (d !! "timestamp") as [[|z|x|s'|t|o|f]|] eqn:E; cbn;
    rewrite ?lookup_delete_ne by discriminate; rewrite ?E; try discriminate.
  destruct (fromisoformat s') eqn:Hs'.
  - rewrite lookup_insert_eq. discriminate.
  - rewrite lookup_delete_ne by discriminate. rewrite E. intros [= <-]. exact Hs'.
Qed.

Lemma normalize_idempotent d : normalize (normalize d) = normalize d.
Proof.
  apply normalize_fixed; [apply normalize_no_id|apply normalize_timestamp_settled].
Qed.

Lemma normalize_is_Some d k : is_Some (normalize d !! k) -> is_Some (d !! k).
Proof.
  destruct (decide (k = "_id"%string)) as [->|Hid].
  { rewrite normalize_no_id. intros [? [=]]. }
  destruct (decide (k = "timestamp"%string)) as [->|Hts].
  - unfold normalize, dict_get. rewrite lookup_delete_ne by discriminate.
    destruct (d !! "timestamp") as [v|] eqn:E; [eauto|]. cbn.
    rewrite lookup_delete_ne by discriminate. rewrite E. trivial.
  - rewrite normalize_other_keys by assumption. trivial.
Qed.

Lemma normalize_same d d' : same_but_id d d' -> normalize d = normalize d'.
Proof. unfold same_but_id, normalize. intros ->. reflexivity. Qed.

Lemma key_fn_same now d d' : same_but_id d d' -> key_fn now d = key_fn now d'.
Proof.
  unfold same_but_id. intros H. unfold key_fn, dict_get.
  rewrite <- (lookup_delete_ne d "_id" "created_at") by discriminate.
  rewrite <- (lookup_delete_ne d "_id" "timestamp") by discriminate.
  rewrite H. rewrite !lookup_delete_ne by discriminate. reflexivity.
Qed.

Lemma keyed_same clock docs docs' :
  Forall2 same_but_id docs docs' -> Forall2 same_keyed (keyed clock docs) (keyed clock docs').
Proof.
  intros HF. revert clock. unfold keyed.
  induction HF as [|d d' docs docs' Hd _ IH]; intros clock; [constructor|].
  rewrite !imap_cons. constructor; [|apply (IH (clock ∘ S))].
  split; [apply key_fn_same, Hd|exact Hd].
Qed.

Lemma insert_desc_same x x' l l' :
  same_keyed x x' -> Forall2 same_keyed l l' ->
  same_outcome (insert_desc x l) (insert_desc x' l').
Proof.
  intros Hx HF. induction HF as [|y y' l l' Hy HF IH]; cbn [insert_desc].
  - cbn. constructor; [exact Hx|constructor].
  - destruct Hx as [Hkx Hdx], Hy as [Hky Hdy]. rewrite <- Hkx, <- Hky.
    destruct (py_lt (fst x) (fst y)) as [[]|e]; cbn [bind same_outcome].
    + unfold same_outcome in IH.
      destruct (insert_desc x l), (insert_desc x' l'); cbn [bind]; try exact IH.
      constructor; [split; assumption|exact IH].
    + constructor; [split; assumption|]. constructor; [split; assumption|exact HF].
    + reflexivity.
Qed.

Lemma sort_desc_same l l' :
  Forall2 same_keyed l l' -> same_outcome (sort_desc l) (sort_desc l').
Proof.
  intros HF. induction HF as [|x x' l l' Hx HF IH]; cbn [sort_desc].
  - constructor.
  - unfold same_outcome in IH.
    destruct (sort_desc l) as [s|e], (sort_desc l') as [s'|e']; cbn [bind];
      first [apply insert_desc_same; assumption | exact IH | destruct IH].
Qed.

Lemma map_result_same l l' :
  Forall2 same_keyed l l' ->
  map_result (fun kd => SensorEvent_new (normalize (snd kd))) l
  = map_result (fun kd => SensorEvent_new (normalize (snd kd))) l'.
Proof.
  intros HF. induction HF as [|x x' l l' [_ Hx] _ IH]; [reflexivity|].
  cbn [map_result]. rewrite (normalize_same _ _ Hx), IH. reflexivity.
Qed.

End NormalizeFacts.

(** ** The properties *)

(** X5.  The constructor of [SensorEvent] reads back the serialised fields
    of an event: applied to the dump of an event whose [gas_ppm] and [aqi]
    are not negative it returns that event, provided the conversions accept a
    value of a field's own type.  The bound [ge=0] is the only condition the
    model puts on the fields. *)
Theorem SensorEvent_dump_round_trip {lib : PyLib} (ev : SensorEvent.t) :
  accepts_own_types lib ->
  0 <= SensorEvent.gas_ppm ev -> 0 <= SensorEvent.aqi ev ->
  SensorEvent_new (SensorEvent_dump ev) = Ok ev.
Proof.
  intros (Hd & Hf & Hi & Hs) Hg Ha.
  destruct ev as [ts temp g a loc nts src]. cbn [SensorEvent.gas_ppm SensorEvent.aqi] in *.
  unfold SensorEvent_new, SensorEvent_dump, required, optional, with_default, ge.
  cbn [SensorEvent.timestamp SensorEvent.temperature_c SensorEvent.gas_ppm SensorEvent.aqi
       SensorEvent.location SensorEvent.notes SensorEvent.source].
  repeat (rewrite ?lookup_insert_eq; rewrite ?lookup_insert_ne by discriminate).
  rewrite Hd, Hf, !Hi, Hs. cbn [bind].
  destruct (Z.leb_spec 0 g); [|lia]. destruct (Z.leb_spec 0 a); [|lia]. cbn [bind].
  destruct loc as [l|]; cbn [from_option];
    [unfold Location_dump at 1; rewrite to_Location_dump by assumption|]; cbn [bind];
    (destruct nts as [n|]; cbn [from_option]; [rewrite Hs|]; reflexivity).
Qed.

Lemma SensorEvent_dump_round_trip_witness :
  SensorEvent_new (lib := Demo.lib) (SensorEvent_dump Samples.event) = Ok Samples.event.
Proof.
  apply (SensorEvent_dump_round_trip (lib := Demo.lib) Samples.event);
    [repeat split; intros; reflexivity | cbn; lia | cbn; lia].
Defined.

(** X6.  The three outcomes of the ingest route.  An identifier is returned
    only for a body that validates as an event with [gas_ppm >= 0] and
    [aqi >= 0], and it is the one [create_document] returned for that event
    in the collection [sensorevent]; a [ValidationError] leaves the store
    untouched; every failure of the store surfaces with status 500, and no
    other exception leaves the route. *)
Theorem ingest_outcomes {lib : PyLib} {db : DocumentStore}
    (body : doc) (st st' : store) (r : result string) :
  post_ingest body st = (r, st') ->
  match r with
  | Ok oid =>
      exists ev, SensorEvent_new body = Ok ev /\
                 create_document "sensorevent" ev st = (Ok oid, st') /\
                 0 <= SensorEvent.gas_ppm ev /\ 0 <= SensorEvent.aqi ev
  | Raise ValidationError =>
      SensorEvent_new body = Raise ValidationError /\ st' = st
  | Raise (HTTPException code) =>
      code = 500 /\
      exists ev e, SensorEvent_new body = Ok ev /\
                   create_document "sensorevent" ev st = (Raise e, st')
  | Raise _ => False
  end.
Proof.
  unfold post_ingest, ingest_sensor_event.
  destruct (SensorEvent_new body) as [ev|e] eqn:Hev.
  - destruct (create_document "sensorevent" ev st) as [[oid|e] st1] eqn:Hc;
      cbn [except_http500]; intros [= <- <-].
    + exists ev. apply SensorEvent_new_Ok in Hev as (_ & _ & Hg & _ & Ha). auto.
    + split; [reflexivity|]. eauto.
  - apply SensorEvent_new_Raise in Hev as ->. intros [= <- <-]. auto.
Qed.

Lemma ingest_outcomes_witness :
  exists ev,
    SensorEvent_new (lib := Demo.lib) Samples.body = Ok ev /\
    create_document (DocumentStore := Demo.memory) "sensorevent" ev Demo.fetched
    = (Ok "oid3"%string, Samples.after_ingest) /\
    0 <= SensorEvent.gas_ppm ev /\ 0 <= SensorEvent.aqi ev.
Proof.
  apply (ingest_outcomes (lib := Demo.lib) (db := Demo.memory)
           Samples.body Demo.fetched Samples.after_ingest (Ok "oid3"%string)).
  vm_compute. reflexivity.
Defined.

(** X7.  The bounds of [SensorEvent] hold for what is read back as well:
    every item of a retrieval has [gas_ppm >= 0] and [aqi >= 0], whatever the
    store holds. *)
Theorem recent_items_within_bounds {lib : PyLib} {db : DocumentStore}
    (limit : option Z) (clock : nat -> Z) (st : store)
    (items : list SensorEvent.t) :
  get_recent_readings limit clock st = Ok items ->
  Forall (fun ev => 0 <= SensorEvent.gas_ppm ev /\ 0 <= SensorEvent.aqi ev) items.
Proof.
  intros Hr.
  apply get_recent_readings_Ok in Hr as (docs & ordered & _ & _ & Hitems).
  apply map_result_Forall2 in Hitems.
  induction Hitems as [|kd ev ordered items Hev _ IH]; constructor; [|exact IH].
  apply SensorEvent_new_Ok in Hev as (_ & _ & Hg & _ & Ha). auto.
Qed.

Lemma recent_items_within_bounds_witness :
  Forall (fun ev => 0 <= SensorEvent.gas_ppm ev /\ 0 <= SensorEvent.aqi ev) Demo.recent_items.
Proof.
  apply (recent_items_within_bounds (lib := Demo.lib) (db := Demo.memory)
           None Demo.clock Demo.fetched Demo.recent_items).
  vm_compute. reflexivity.
Defined.

(** X8.  A retrieval returns only if every fetched document holds the four
    fields that [SensorEvent] requires: one document without a [timestamp],
    [temperature_c], [gas_ppm] or [aqi] fails the request for all. *)
Theorem recent_requires_every_field {lib : PyLib} {db : DocumentStore}
    (limit : option Z) (clock : nat -> Z) (st : store)
    (items : list SensorEvent.t) :
  get_recent_readings limit clock st = Ok items ->
  exists docs,
    get_documents "sensorevent" (default 20 limit) st = Ok docs /\
    forall d k, d ∈ docs -> k ∈ required_fields -> is_Some (d !! k).
Proof.
  intros Hr. apply get_recent_readings_Ok in Hr as (docs & ordered & Hdocs & Hord & Hitems).
  exists docs. split; [exact Hdocs|]. intros d k Hd Hk.
  apply map_result_Forall2 in Hitems.
  destruct (keyed_elem clock docs d Hd) as [i Hi].
  rewrite <- (sort_desc_perm _ _ Hord) in Hi.
  apply list_elem_of_lookup in Hi as [j Hj].
  destruct (Forall2_lookup_l _ _ _ _ _ Hitems Hj) as (ev & _ & Hev). cbn [snd] in Hev.
  apply normalize_is_Some. eapply SensorEvent_new_required; eassumption.
Qed.

Lemma recent_requires_every_field_witness :
  exists docs,
    get_documents (DocumentStore := Demo.memory) "sensorevent" 20 Demo.fetched = Ok docs /\
    forall d k, d ∈ docs -> k ∈ required_fields -> is_Some (d !! k).
Proof.
  apply (recent_requires_every_field (lib := Demo.lib) (db := Demo.memory)
           None Demo.clock Demo.fetched Demo.recent_items).
  vm_compute. reflexivity.
Defined.

(** X9.  A retrieval fails with status 500 and with nothing else, and for
    one of three reasons: the store raised, the sort raised a [TypeError] on
    two keys that [<] does not compare, or the constructor rejected a
    fetched document with a [ValidationError]. *)
Theorem recent_failure_causes {lib : PyLib} {db : DocumentStore}
    (limit : option Z) (clock : nat -> Z) (st : store) (e : exn) :
  get_recent_readings limit clock st = Raise e ->
  e = HTTPException 500 /\
  ((exists e', get_documents "sensorevent" (default 20 limit) st = Raise e') \/
   (exists docs, get_documents "sensorevent" (default 20 limit) st = Ok docs /\
                 sort_desc (keyed clock docs) = Raise TypeError) \/
   (exists docs d, get_documents "sensorevent" (default 20 limit) st = Ok docs /\
                   d ∈ docs /\ SensorEvent_new (normalize d) = Raise ValidationError)).
Proof.
  unfold get_recent_readings.
  destruct (get_documents "sensorevent" (default 20 limit) st) as [docs|e1] eqn:Hdocs;
    cbn [bind except_http500].
  - destruct (sort_desc (keyed clock docs)) as [ordered|e2] eqn:Hord; cbn [bind].
    + destruct (map_result _ ordered) as [items|e3] eqn:Hmap; cbn [except_http500];
        [discriminate|].
      intros [= <-]. split; [reflexivity|]. right; right.
      apply map_result_Raise_inv in Hmap as ([k d] & Hin & Hraise). cbn [snd] in Hraise.
      exists docs, d. split; [reflexivity|]. split.
      * rewrite <- (keyed_snd clock docs). apply list_elem_of_fmap.
        exists (k, d). split; [reflexivity|]. rewrite <- (sort_desc_perm _ _ Hord). exact Hin.
      * rewrite Hraise. f_equal. eapply SensorEvent_new_Raise, Hraise.
    + intros [= <-]. split; [reflexivity|]. right; left.
      exists docs. split; [reflexivity|]. rewrite Hord. f_equal. eapply sort_desc_Raise, Hord.
  - intros [= <-]. split; [reflexivity|]. left. eauto.
Qed.

Lemma recent_failure_causes_witness :
  HTTPException 500 = HTTPException 500 /\
  ((exists e', get_documents (DocumentStore := Demo.memory) "sensorevent" 20
                 (Demo.fetched ++ [Demo.malformed]) = Raise e') \/
   (exists docs, get_documents (DocumentStore := Demo.memory) "sensorevent" 20
                   (Demo.fetched ++ [Demo.malformed]) = Ok docs /\
                 sort_desc (keyed Demo.clock docs) = Raise TypeError) \/
   (exists docs d, get_documents (DocumentStore := Demo.memory) "sensorevent" 20
                     (Demo.fetched ++ [Demo.malformed]) = Ok docs /\
                   d ∈ docs /\
                   SensorEvent_new (lib := Demo.lib) (normalize (lib := Demo.lib) d)
                   = Raise ValidationError)).
Proof.
  apply (recent_failure_causes (lib := Demo.lib) (db := Demo.memory)
           None Demo.clock (Demo.fetched ++ [Demo.malformed]) (HTTPException 500)).
  vm_compute. reflexivity.
Defined.

(** X10.  The sort key is whatever the document holds, not a datetime made of
    it: when two fetched documents have keys of different kinds (a timestamp
    string and a datetime, a naive and an aware datetime, a number and a
    string), the retrieval fails with status 500. *)
Theorem recent_mixed_keys_fail {lib : PyLib} {db : DocumentStore}
    (limit : option Z) (clock : nat -> Z) (st : store)
    (docs : list doc) (i j : nat) (d1 d2 : doc) :
  get_documents "sensorevent" (default 20 limit) st = Ok docs ->
  docs !! i = Some d1 -> docs !! j = Some d2 ->
  kind_of (key_fn (clock i) d1) <> kind_of (key_fn (clock j) d2) ->
  get_recent_readings limit clock st = Raise (HTTPException 500).
Proof.
  intros Hdocs H1 H2 Hne.
  unfold get_recent_readings. rewrite Hdocs. cbn [bind].
  destruct (sort_desc (keyed clock docs)) as [ordered|e] eqn:Hord; [exfalso|reflexivity].
  assert (i <> j) as Hij by (intros ->; congruence).
  assert (2 <= length docs)%nat as Hlen.
  { apply lookup_lt_Some in H1, H2. lia. }
  destruct (sort_desc_one_kind _ _ Hord ltac:(rewrite keyed_length; exact Hlen)) as (k & Hall).
  rewrite Forall_forall in Hall.
  assert ((key_fn (clock i) d1, d1) ∈ keyed clock docs) as Hi.
  { apply list_elem_of_lookup. exists i. unfold keyed. rewrite list_lookup_imap, H1. reflexivity. }
  assert ((key_fn (clock j) d2, d2) ∈ keyed clock docs) as Hj.
  { apply list_elem_of_lookup. exists j. unfold keyed. rewrite list_lookup_imap, H2. reflexivity. }
  apply Hall in Hi, Hj. cbn [fst] in Hi, Hj. congruence.
Qed.

Lemma recent_mixed_keys_fail_witness :
  get_recent_readings (lib := Demo.lib) (db := Demo.memory) None Demo.clock Samples.mixed
  = Raise (HTTPException 500).
Proof.
  apply (recent_mixed_keys_fail (lib := Demo.lib) (db := Demo.memory)
           None Demo.clock Samples.mixed Samples.mixed 0%nat 1%nat Demo.zulu Demo.february);
    [reflexivity | reflexivity | reflexivity | vm_compute; discriminate].
Defined.





(** X12.  The loop body changes a document at the keys [_id] and [timestamp]
    and nowhere else, leaves no [_id], and is idempotent: processing a
    processed document again changes nothing. *)
Theorem normalize_touches_two_keys {lib : PyLib} (d : doc) :
  (forall k, k <> "_id"%string -> k <> "timestamp"%string -> normalize d !! k = d !! k) /\
  normalize d !! "_id" = None /\
  normalize (normalize d) = normalize d.
Proof.
  split; [intros k; apply normalize_other_keys|].
  split; [apply normalize_no_id|apply normalize_idempotent].
Qed.

(** X13.  A timestamp string that [datetime.fromisoformat] parses is replaced
    by the parsed datetime before the constructor runs: the item carries
    the reading of [fromisoformat], not that of the constructor's own
    conversion of strings. *)
Theorem iso_timestamp_read_by_fromisoformat {lib : PyLib}
    (d : doc) (s : string) (t : datetime)
    (ev : SensorEvent.t) :
  d !! "timestamp" = Some (VStr s) ->
  fromisoformat s = Some t ->
  to_datetime (VDatetime t) = Some t ->
  SensorEvent_new (normalize d) = Ok ev ->
  SensorEvent.timestamp ev = t.
Proof.
  intros Hd Hs Ht Hev. apply SensorEvent_new_Ok in Hev as (Hts & _).
  unfold normalize, dict_get in Hts.
  rewrite lookup_delete_ne in Hts by discriminate. rewrite Hd in Hts. cbn in Hts.
  rewrite Hs in Hts. rewrite lookup_insert_eq in Hts. cbn in Hts.
  rewrite Ht in Hts. congruence.
Qed.

Lemma iso_timestamp_read_by_fromisoformat_witness :
  SensorEvent.timestamp Samples.march_item
  = {| instant := 1706745600000000; tz_aware := false |}.
Proof.
  apply (iso_timestamp_read_by_fromisoformat (lib := Demo.lib)
           Demo.march "2024-02-01T00:00:00" {| instant := 1706745600000000; tz_aware := false |}
           Samples.march_item);
    vm_compute; reflexivity.
Defined.

(** X14.  The identifiers of the stored documents play no part in a
    retrieval: two stores whose fetched documents differ at most at [_id]
    give the same result, items or exception. *)
Theorem recent_ignores_identifiers {lib : PyLib} {db : DocumentStore}
    (limit : option Z) (clock : nat -> Z) (st st' : store)
    (docs docs' : list doc) :
  get_documents "sensorevent" (default 20 limit) st = Ok docs ->
  get_documents "sensorevent" (default 20 limit) st' = Ok docs' ->
  Forall2 same_but_id docs docs' ->
  get_recent_readings limit clock st = get_recent_readings limit clock st'.
Proof.
  intros Hd Hd' HF. unfold get_recent_readings. rewrite Hd, Hd'. cbn [bind].
  pose proof (sort_desc_same _ _ (keyed_same clock docs docs' HF)) as Hs.
  unfold same_outcome in Hs.
  destruct (sort_desc (keyed clock docs)) as [s|e],
           (sort_desc (keyed clock docs')) as [s'|e']; cbn [bind]; try tauto.
  rewrite (map_result_same s s' Hs). reflexivity.
Qed.

Lemma recent_ignores_identifiers_witness :
  get_recent_readings (lib := Demo.lib) (db := Demo.memory) None Demo.clock Demo.fetched
  = get_recent_readings (lib := Demo.lib) (db := Demo.memory) None Demo.clock Samples.anonymous.
Proof.
  apply (recent_ignores_identifiers (lib := Demo.lib) (db := Demo.memory)
           None Demo.clock Demo.fetched Samples.anonymous Demo.fetched Samples.anonymous);
    [reflexivity | reflexivity |].
  repeat constructor; vm_compute; reflexivity.
Defined.

(** ** The assess route *)

Lemma InsightRequest_new_Raise {lib : PyLib} d e :
  InsightRequest_new d = Raise e -> e = ValidationError.
Proof.
  unfold InsightRequest_new.
  destruct (required to_float d "temperature_c") eqn:Et; cbn [bind];
    [|intros [= <-]; eapply required_Raise, Et].
  destruct (required to_int d "gas_ppm") eqn:Eg; cbn [bind];
    [|intros [= <-]; eapply required_Raise, Eg].
  destruct (required to_int d "aqi") eqn:Ea; cbn [bind];
    [discriminate|intros [= <-]; eapply required_Raise, Ea].
Qed.

Lemma int_truediv_Raise_large a b e :
  b <> 0 -> int_truediv a b = Raise e -> e = OverflowError /\ 2 ^ 1023 <= Z.abs a.
Proof.
  intros Hb Hr. split; [apply (int_truediv_raises a b e Hr Hb)|].
  destruct (Z.lt_ge_cases (Z.abs a) (2 ^ 1023)) as [Hlt|Hge]; [|exact Hge].
  destruct (int_truediv_in_range a b Hb Hlt) as [q Hq]. congruence.
Qed.

Lemma assess_risk_Raise p e :
  assess_risk p = Raise e ->
  e = OverflowError /\ (2 ^ 1023 <= Z.abs (gas_ppm p) \/ 2 ^ 1023 <= Z.abs (aqi p)).
Proof.
  intros Hr. destruct (weighted_score p) as [s|e'] eqn:Hs.
  { rewrite (assess_risk_of_sum _ _ Hs) in Hr. discriminate. }
  rewrite (assess_risk_raises _ _ Hs) in Hr. injection Hr as ->.
  unfold weighted_score in Hs.
  destruct (int_truediv (gas_ppm p) 12) as [qg|eg] eqn:Hg; cbn [bind] in Hs.
  - destruct (int_truediv (aqi p) 3) as [qa|ea] eqn:Ha; cbn [bind] in Hs; [discriminate|].
    injection Hs as ->.
    destruct (int_truediv_Raise_large (aqi p) 3 _ ltac:(lia) Ha) as [-> Hlarge]. auto.
  - injection Hs as ->.
    destruct (int_truediv_Raise_large (gas_ppm p) 12 _ ltac:(lia) Hg) as [-> Hlarge]. auto.
Qed.

(** X15.  The outcomes of the assess route.  A response is that of
    [assess_risk] on the validated request; a body that is rejected raises a
    [ValidationError]; the handler itself raises only [OverflowError], and
    only on a reading of at least 2^1023 in absolute value; nothing else
    leaves the route: in particular the bounds that [InsightResponse] puts
    on the score never reject a response. *)
Theorem assess_route_outcomes {lib : PyLib} (body : doc) :
  match post_assess body with
  | Ok r => exists p, InsightRequest_new body = Ok p /\ assess_risk p = Ok r
  | Raise ValidationError => InsightRequest_new body = Raise ValidationError
  | Raise OverflowError =>
      exists p, InsightRequest_new body = Ok p /\
                (2 ^ 1023 <= Z.abs (gas_ppm p) \/ 2 ^ 1023 <= Z.abs (aqi p))
  | Raise _ => False
  end.
Proof.
  unfold post_assess.
  destruct (InsightRequest_new body) as [p|e] eqn:Hp; cbn [bind].
  - destruct (assess_risk p) as [r|e] eqn:Hr; [eauto|].
    destruct (assess_risk_Raise p e Hr) as [-> Hlarge]. eauto.
  - rewrite (InsightRequest_new_Raise body e Hp). reflexivity.
Qed.

(** * The self-test and the schema *)

(** X16.  The report of [test_database].  It lists at most ten collections;
    it says Connected exactly when a database handle is configured; it says
    that the database works exactly when the listing of the collections
    succeeded, and then it carries the first ten names; collections are
    listed only in a working report; neither of the two texts the function
    starts from survives to the report; and a handle with the variable
    [DATABASE_URL] unset or empty is reported as such. *)
Theorem test_database_report (db : option Database) (url : option string) :
  let r := test_database db url in
  (length (collections r) <= 10)%nat /\
  (connection_status r = "Connected"%string <-> db <> None) /\
  (database r = "✅ Connected & Working"%string <->
   exists h names, db = Some h /\ list_collection_names h = inr names /\
                   collections r = take 10 names) /\
  (collections r <> [] -> database r = "✅ Connected & Working"%string) /\
  database r <> "❌ Not Available"%string /\
  database r <> "✅ Available"%string /\
  (env_set url = false -> db <> None -> database_url r = Some "❌ Not Set"%string).
Proof.
  cbn zeta. split.
  { destruct db as [[nm [msg|names]]|]; cbn; try lia. rewrite length_take. lia. }
  split.
  { destruct db as [[nm [msg|names]]|]; cbn; split; congruence. }
  split.
  { destruct db as [[nm [msg|names]]|]; cbn; split.
    - discriminate.
    - intros (h & names & [= <-] & Hl & _). discriminate.
    - intros _. eexists _, names. repeat split.
    - reflexivity.
    - discriminate.
    - intros (h & names & Hdb & _). discriminate. }
  split.
  { destruct db as [[nm [msg|names]]|]; cbn; congruence. }
  split.
  { destruct db as [[nm [msg|names]]|]; cbn; discriminate. }
  split.
  { destruct db as [[nm [msg|names]]|]; cbn; discriminate. }
  intros Hu Hdb. destruct db as [[nm [msg|names]]|]; cbn; rewrite ?Hu; congruence.
Qed.

(** X17.  The schema that [get_schema] exposes is that of the model: one
    collection, [sensorevent], whose entries name exactly the fields that a
    serialised [SensorEvent] has, each with the type of the value found
    there, whatever the event. *)
Theorem get_schema_describes_SensorEvent (ev : SensorEvent.t) :
  exists c,
    get_schema = [c] /\
    Schema.name c = "sensorevent"%string /\
    forallb (entry_describes (SensorEvent_dump ev)) (Schema.fields c) = true /\
    (list_to_set (entry_root <$> Schema.fields c) : gset string) = dom (SensorEvent_dump ev).
Proof.
  eexists. split; [reflexivity|]. split; [reflexivity|]. split.
  - destruct ev as [ts temp g a [[la ln]|] [n|] src]; vm_compute; reflexivity.
  - unfold SensorEvent_dump. rewrite !dom_insert_L, dom_empty_L.
    vm_compute (entry_root <$> _). cbn [list_to_set foldr]. set_solver.
Qed.
